(** * jupyter_server.services.sessions.sessionmanager

    A shallow embedding of [SessionRecord] and [SessionManager]: the
    sqlite table [session] is a list of rows in rowid order, the manager
    is a record that every method threads through a state-and-exception
    monad, and the kernel manager and the contents manager, which live
    outside this module, are interfaces. *)

From Stdlib Require Import List String Ascii Bool Arith Lia.
From Stdlib.Strings Require Import Byte.
Import ListNotations.
Open Scope string_scope.

Set Implicit Arguments.

(** ** Python and sqlite values *)

(** What the code stores in a column or passes as a query parameter:
    [None] (NULL in sqlite) or a [str]. *)
Abbreviation value := (option string).

(** Python [a == b] on such values. *)
Definition py_eq (a b : value) : bool :=
  match a, b with
  | Some x, Some y => String.eqb x y
  | None, None => true
  | _, _ => false
  end.

(** Python truthiness: [None] and the empty string are falsy. *)
Definition truthy (a : value) : bool :=
  match a with
  | None => false
  | Some s => negb (String.eqb s "")
  end.

(** Python [a is not None]. *)
Definition is_not_None (a : value) : bool :=
  match a with
  | Some _ => true
  | None => false
  end.

(** SQL [column = ?]: a comparison with NULL on either side selects nothing. *)
Definition sql_eq (a b : value) : bool :=
  match a, b with
  | Some x, Some y => String.eqb x y
  | _, _ => false
  end.

(** ** Exceptions and outcomes *)

Inductive exn : Type :=
| TypeError
| KeyError
| HTTPError (status : nat)
| TraitError
| Exception (what : string).

Inductive outcome (A : Type) : Type :=
| Return (a : A)
| Raise (e : exn).
Arguments Return {A} a.
Arguments Raise {A} e.

(** ** SessionRecord *)

Module SessionRecord.

Record t : Type := mk {
  session_id : value;
  kernel_id : value;
  recorded : option bool
}.

(** [__eq__] between two records.  [x and y and x == y] is truthy when
    [x] and [y] are truthy and equal; [any] of the two tests decides. *)
Definition eq (self other : t) : bool :=
  if orb
       (truthy (session_id self) && truthy (session_id other)
        && py_eq (session_id self) (session_id other))
       (truthy (kernel_id self) && truthy (kernel_id other)
        && py_eq (kernel_id self) (kernel_id other))
  then true
  else false.

End SessionRecord.

(** ** The table [session] *)

(** One row of [session (session_id, path, name, type, kernel_id)].
    [save_session] must be given a session id, a [str]; its other
    parameters default to [None]. *)
Record Row : Type := mkRow {
  col_session_id : string;
  col_path : value;
  col_name : value;
  col_type : value;
  col_kernel_id : value
}.

Definition _columns : list string :=
  ["session_id"; "path"; "name"; "type"; "kernel_id"].

(** [column in self._columns] *)
Definition in_columns (column : string) : bool :=
  existsb (String.eqb column) _columns.

(** [row[column]] *)
Definition row_get (r : Row) (column : string) : value :=
  if column =? "session_id" then Some (col_session_id r)
  else if column =? "path" then col_path r
  else if column =? "name" then col_name r
  else if column =? "type" then col_type r
  else if column =? "kernel_id" then col_kernel_id r
  else None.

(** [SET column = v] on one row.  Python binds a keyword [session_id] to
    the first parameter of [update_session], so its [kwargs] never hold
    that key and the column stays a [str]. *)
Definition row_set (r : Row) (cv : string * value) : Row :=
  let (column, v) := cv in
  if column =? "path" then
    mkRow (col_session_id r) v (col_name r) (col_type r) (col_kernel_id r)
  else if column =? "name" then
    mkRow (col_session_id r) (col_path r) v (col_type r) (col_kernel_id r)
  else if column =? "type" then
    mkRow (col_session_id r) (col_path r) (col_name r) v (col_kernel_id r)
  else if column =? "kernel_id" then
    mkRow (col_session_id r) (col_path r) (col_name r) (col_type r) v
  else if column =? "session_id" then
    match v with
    | Some s => mkRow s (col_path r) (col_name r) (col_type r) (col_kernel_id r)
    | None => r
    end
  else r.

(** The statements the manager executes.  [SELECT []] is
    [SELECT * FROM session]; the conditions of a [SELECT] are joined by
    AND. *)
Inductive sql : Type :=
| SELECT (conditions : list (string * value))
| INSERT (row : Row)
| UPDATE (sets : list (string * value)) (session_id : value)
| DELETE (session_id : value).

Definition row_matches (conditions : list (string * value)) (r : Row) : bool :=
  forallb (fun cv => sql_eq (row_get r (fst cv)) (snd cv)) conditions.

Definition has_session_id (session_id : value) (r : Row) : bool :=
  sql_eq (Some (col_session_id r)) session_id.

(** The table after a statement, and the rows the statement yields. *)
Definition run (q : sql) (table : list Row) : list Row * list Row :=
  match q with
  | SELECT conditions => (table, filter (row_matches conditions) table)
  | INSERT row => ((table ++ [row])%list, [])
  | UPDATE sets session_id =>
      (map (fun r => if has_session_id session_id r
                     then fold_left row_set sets r else r) table, [])
  | DELETE session_id =>
      (filter (fun r => negb (has_session_id session_id r)) table, [])
  end.

Definition writes (q : sql) : bool :=
  match q with
  | SELECT _ => false
  | _ => true
  end.

(** ** Collaborators *)

(** [kernel_manager.kernel_model(kernel_id)]. *)
Record KernelModel : Type := mkKernelModel {
  kernel_model_id : value;
  execution_state : string
}.

(** Modelled from the spec: the kernel manager (MappingKernelManager,
    the spec's KernelRegistry) is not part of this module.  [contains]
    is [kernel_id in kernel_manager], [start_kernel] and
    [shutdown_kernel] may fail and change the registry, and
    [kernel_state] is the execution state its status model reports. *)
Class MappingKernelManager (K : Type) : Type := {
  contains : K -> value -> bool;
  start_kernel : K -> value -> value -> outcome string * K;
  shutdown_kernel : K -> value -> outcome unit * K;
  kernel_state : K -> value -> string
}.

(** Modelled from the spec: the status model of a kernel carries the id
    it was asked for and an execution state. *)
Definition kernel_model {K} `{MappingKernelManager K} (k : K) (kernel_id : value)
  : KernelModel :=
  mkKernelModel kernel_id (kernel_state k kernel_id).

(** Modelled from the spec: the contents manager (the spec's
    ContentsResolver) maps a session path to the directory its kernel
    starts in. *)
Class ContentsManager (C : Type) : Type := {
  get_kernel_path : C -> value -> value
}.

(** ** The manager *)

Inductive sqlite3_object : Type :=
| Connection (database : string)
| Cursor (database : string).

(** The calls that leave the manager, in the order they are made:
    statements that write to the table and calls to the collaborators. *)
Inductive event : Type :=
| ev_execute (q : sql)
| ev_get_kernel_path (path : value)
| ev_start_kernel (path kernel_name : value)
| ev_shutdown_kernel (kernel_id : value).

(** The session model a request is answered with. *)
Record Model : Type := mkModel {
  id : string;
  path : value;
  name : value;
  type : value;
  kernel : KernelModel;
  notebook : option (value * value)
}.

Section SessionManager.

Context {K C : Type} `{MappingKernelManager K} `{ContentsManager C}.

(** [self], with the world it acts on: the table behind the
    connection, the sqlite objects that are open, the identifiers
    [uuid.uuid4] is going to draw, and the history of outgoing calls. *)
Record SessionManager : Type := mkSessionManager {
  database_filepath : string;
  _cursor : option sqlite3_object;
  _connection : option sqlite3_object;
  kernel_manager : K;
  contents_manager : C;
  session : list Row;
  open_objects : list sqlite3_object;
  uuid4 : nat -> string;
  uuid_drawn : nat;
  history : list event
}.

Definition M (A : Type) : Type := SessionManager -> outcome A * SessionManager.

Definition ret {A} (a : A) : M A := fun self => (Return a, self).

Definition raise {A} (e : exn) : M A := fun self => (Raise e, self).

Definition bind {A B} (c : M A) (f : A -> M B) : M B :=
  fun self =>
    match c self with
    | (Return a, self') => f a self'
    | (Raise e, self') => (Raise e, self')
    end.

(** [try: c except KeyError: handler] *)
Definition except_KeyError {A} (c : M A) (handler : M A) : M A :=
  fun self =>
    match c self with
    | (Raise KeyError, self') => handler self'
    | r => r
    end.

Notation "x <- c ;; f" := (bind c (fun x => f))
  (at level 61, c at next level, right associativity).
Notation "c ;;; f" := (bind c (fun _ => f))
  (at level 61, right associativity).

(** *** Field updates *)

Definition set_connection (o : sqlite3_object) (self : SessionManager) :=
  mkSessionManager (database_filepath self) (_cursor self) (Some o)
    (kernel_manager self) (contents_manager self) (session self)
    (o :: open_objects self) (uuid4 self) (uuid_drawn self) (history self).

Definition set_cursor (o : sqlite3_object) (self : SessionManager) :=
  mkSessionManager (database_filepath self) (Some o) (_connection self)
    (kernel_manager self) (contents_manager self) (session self)
    (o :: open_objects self) (uuid4 self) (uuid_drawn self) (history self).

Definition sqlite3_object_eqb (a b : sqlite3_object) : bool :=
  match a, b with
  | Connection x, Connection y => String.eqb x y
  | Cursor x, Cursor y => String.eqb x y
  | _, _ => false
  end.

(** [self._cursor.close(); self._cursor = None] *)
Definition drop_cursor (o : sqlite3_object) (self : SessionManager) :=
  mkSessionManager (database_filepath self) None (_connection self)
    (kernel_manager self) (contents_manager self) (session self)
    (filter (fun x => negb (sqlite3_object_eqb o x)) (open_objects self))
    (uuid4 self) (uuid_drawn self) (history self).

Definition set_session (table : list Row) (self : SessionManager) :=
  mkSessionManager (database_filepath self) (_cursor self) (_connection self)
    (kernel_manager self) (contents_manager self) table
    (open_objects self) (uuid4 self) (uuid_drawn self) (history self).

Definition set_kernel_manager (k : K) (self : SessionManager) :=
  mkSessionManager (database_filepath self) (_cursor self) (_connection self)
    k (contents_manager self) (session self)
    (open_objects self) (uuid4 self) (uuid_drawn self) (history self).

Definition draw_uuid (self : SessionManager) :=
  mkSessionManager (database_filepath self) (_cursor self) (_connection self)
    (kernel_manager self) (contents_manager self) (session self)
    (open_objects self) (uuid4 self) (S (uuid_drawn self)) (history self).

Definition log (e : event) (self : SessionManager) :=
  mkSessionManager (database_filepath self) (_cursor self) (_connection self)
    (kernel_manager self) (contents_manager self) (session self)
    (open_objects self) (uuid4 self) (uuid_drawn self) ((history self ++ [e])%list).

(** *** The storage handle *)

(** The property [connection]: opened on first use. *)
Definition connection : M sqlite3_object :=
  fun self =>
    match _connection self with
    | Some c => (Return c, self)
    | None =>
        let c := Connection (database_filepath self) in
        (Return c, set_connection c self)
    end.

(** The property [cursor]: opened on first use, over [connection];
    [CREATE TABLE IF NOT EXISTS] leaves the rows of an existing table
    as they are and gives a new table no row. *)
Definition cursor : M sqlite3_object :=
  fun self =>
    match _cursor self with
    | Some c => (Return c, self)
    | None =>
        (_ <- connection ;;
         fun self' =>
           let c := Cursor (database_filepath self') in
           (Return c, set_cursor c self')) self
    end.

Definition close : M unit :=
  fun self =>
    match _cursor self with
    | Some c => (Return tt, drop_cursor c self)
    | None => (Return tt, self)
    end.

(** [__del__]: the manager closes as it is collected. *)
Definition __del__ : M unit := close.

(** [self.cursor.execute(q, parameters)] *)
Definition execute (q : sql) : M (list Row) :=
  _ <- cursor ;;
  fun self =>
    let (table, rows) := run q (session self) in
    (Return rows,
     if writes q then log (ev_execute q) (set_session table self)
     else set_session table self).

(** [cursor.fetchone()] *)
Definition fetchone (rows : list Row) : option Row := hd_error rows.

(** *** Reconciliation *)

Definition kernel_culled (kernel_id : value) : M bool :=
  fun self => (Return (negb (contains (kernel_manager self) kernel_id)), self).

Definition get_kernel_model (kernel_id : value) : M KernelModel :=
  fun self => (Return (kernel_model (kernel_manager self) kernel_id), self).

(** The dictionary [row_to_model] builds for a live kernel. *)
Definition model_of (row : Row) (kernel_model : KernelModel) : Model :=
  mkModel (col_session_id row) (col_path row) (col_name row) (col_type row)
    kernel_model
    (if py_eq (col_type row) (Some "notebook")
     then Some (col_path row, col_name row) else None).

Definition row_to_model (row : Row) (tolerate_culled : bool) : M (option Model) :=
  kernel_culled <- kernel_culled (col_kernel_id row) ;;
  if kernel_culled : bool then
    execute (DELETE (Some (col_session_id row))) ;;;
    if tolerate_culled then ret None else raise KeyError
  else
    kernel_model <- get_kernel_model (col_kernel_id row) ;;
    ret (Some (model_of row kernel_model)).

(** *** The operations *)

Definition session_exists (path : value) : M bool :=
  rows <- execute (SELECT [("path", path)]) ;;
  match fetchone rows with
  | Some row =>
      model <- row_to_model row true ;;
      match model with
      | Some _ => ret true
      | None => ret false
      end
  | None => ret false
  end.

Definition new_session_id : M string :=
  fun self => (Return (uuid4 self (uuid_drawn self)), draw_uuid self).

(** [for column in kwargs.keys(): if column not in self._columns: raise ...] *)
Fixpoint check_columns (columns : list string) : M unit :=
  match columns with
  | [] => ret tt
  | column :: rest =>
      if in_columns column then check_columns rest else raise TypeError
  end.

(** [fetchone] raises no [KeyError], so the handler around it never
    runs; the one around [row_to_model] turns a culled session into a
    404. *)
Definition get_session (kwargs : list (string * value)) : M (option Model) :=
  match kwargs with
  | [] => raise TypeError
  | _ =>
      check_columns (map fst kwargs) ;;;
      rows <- execute (SELECT kwargs) ;;
      match fetchone rows with
      | None => raise (HTTPError 404)
      | Some row =>
          except_KeyError (row_to_model row false) (raise (HTTPError 404))
      end
  end.

Definition save_session (session_id : string) (path name type kernel_id : value)
  : M (option Model) :=
  execute (INSERT (mkRow session_id path name type kernel_id)) ;;;
  get_session [("session_id", Some session_id)].

Definition start_kernel_for_session
    (session_id : string) (path name type kernel_name : value) : M value :=
  kernel_path <-
    (fun self => (Return (get_kernel_path (contents_manager self) path),
                  log (ev_get_kernel_path path) self)) ;;
  kernel_id <-
    (fun self =>
       let (r, k) := start_kernel (kernel_manager self) kernel_path kernel_name in
       (r, log (ev_start_kernel kernel_path kernel_name)
             (set_kernel_manager k self))) ;;
  ret (Some kernel_id).

Definition create_session (path name type kernel_name kernel_id : value)
  : M (option Model) :=
  session_id <- new_session_id ;;
  kernel_id <-
    (fun self =>
       if is_not_None kernel_id && contains (kernel_manager self) kernel_id
       then ret kernel_id self
       else start_kernel_for_session session_id path name type kernel_name self) ;;
  save_session session_id path name type kernel_id.

Definition update_session (session_id : value) (kwargs : list (string * value))
  : M unit :=
  get_session [("session_id", session_id)] ;;;
  match kwargs with
  | [] => ret tt
  | _ =>
      check_columns (map fst kwargs) ;;;
      execute (UPDATE kwargs session_id) ;;;
      ret tt
  end.

(** The loop of [list_sessions] over the rows [fetchall] returned. *)
Fixpoint list_sessions_loop (rows : list Row) (result : list (option Model))
  : M (list (option Model)) :=
  match rows with
  | [] => ret result
  | row :: rest =>
      fun self =>
        match row_to_model row false self with
        | (Return model, self') =>
            list_sessions_loop rest ((result ++ [model])%list) self'
        | (Raise KeyError, self') => list_sessions_loop rest result self'
        | (Raise e, self') => (Raise e, self')
        end
  end.

Definition list_sessions : M (list (option Model)) :=
  rows <- execute (SELECT []) ;;
  list_sessions_loop rows [].

(** [session["kernel"]["id"]]: subscripting [None] is a [TypeError]. *)
Definition delete_session (session_id : value) : M unit :=
  session <- get_session [("session_id", session_id)] ;;
  match session with
  | None => raise TypeError
  | Some model =>
      (fun self =>
         let (r, k) := shutdown_kernel (kernel_manager self)
                         (kernel_model_id (kernel model)) in
         (r, log (ev_shutdown_kernel (kernel_model_id (kernel model)))
               (set_kernel_manager k self))) ;;;
      execute (DELETE session_id) ;;;
      ret tt
  end.

(** *** Vocabulary of the statements below *)

(** The kernel of a row is known to the kernel manager. *)
Definition alive (k : K) (row : Row) : bool := contains k (col_kernel_id row).

(** The model reconciliation composes for a row. *)
Definition composed (k : K) (row : Row) : Model :=
  model_of row (kernel_model k (col_kernel_id row)).

(** The row carries the path, as [WHERE path=?] tests it. *)
Definition has_path (path : value) (row : Row) : bool := sql_eq (col_path row) path.

(** The manager once the property [cursor] has been read. *)
Definition opened (self : SessionManager) : SessionManager := snd (cursor self).

(** The manager once [execute q] has run. *)
Definition executed (q : sql) (self : SessionManager) : SessionManager :=
  snd (execute q self).

(** The table once the rows with the session id of a dead row of
    [rows] are deleted. *)
Definition culled_table (k : K) (rows table : list Row) : list Row :=
  filter (fun r =>
            negb (existsb (fun d => negb (alive k d)
                                    && (col_session_id d =? col_session_id r))
                          rows))
         table.

End SessionManager.

Arguments SessionManager K C : clear implicits.

(** ** The configured database file *)

(** What the [stat] behind [path.exists()] and [path.is_dir()] tells:
    no entry, a directory, or an entry of another kind. *)
Inductive stat_result : Type :=
| NoEntry
| IsDirectory
| IsOther.

(** What the validation can observe at a path: the [stat] of
    [pathlib.Path(value)], which raises the [OSError]s pathlib does not
    swallow, and the bytes that [open(value, "rb")] and [read] yield,
    which raise when the file cannot be opened or read. *)
Record path_view : Type := mkPathView {
  path_stat : outcome stat_result;
  path_read : outcome (list byte)
}.

Definition filesystem := string -> path_view.

(** [data.startswith(prefix)] on [bytes] *)
Fixpoint startswith (data prefix : list byte) : bool :=
  match prefix, data with
  | [], _ => true
  | p :: prefix', d :: data' => Byte.eqb p d && startswith data' prefix'
  | _ :: _, [] => false
  end.

Definition is_empty (data : list byte) : bool :=
  match data with
  | [] => true
  | _ :: _ => false
  end.

Definition sqlite_header : list byte := list_byte_of_string "SQLite format 3".

Definition _validate_database_filepath (fs : filesystem) (value : string)
  : outcome string :=
  if value =? ":memory:" then Return value
  else
    match path_stat (fs value) with
    | Raise e => Raise e
    | Return NoEntry => Return value
    | Return IsDirectory => Raise TraitError
    | Return IsOther =>
        match path_read (fs value) with
        | Raise e => Raise e
        | Return content =>
            let header := firstn 100 content in
            if negb (startswith header sqlite_header) && negb (is_empty header)
            then Raise TraitError
            else Return value
        end
    end.

(** ** A small world to run the manager in *)

Module Demo.

(** A kernel manager that is the list of its running kernels, each
    with whether it will shut down cleanly. *)
Definition Kernels := list (string * bool).

Definition running (k : Kernels) (kernel_id : value) : bool :=
  match kernel_id with
  | Some s => existsb (fun e => fst e =? s) k
  | None => false
  end.

Definition shuts_down (k : Kernels) (kernel_id : value) : bool :=
  match kernel_id with
  | Some s => existsb (fun e => (fst e =? s) && snd e) k
  | None => false
  end.

Definition forget (k : Kernels) (kernel_id : value) : Kernels :=
  filter (fun e => negb (sql_eq (Some (fst e)) kernel_id)) k.

#[global] Instance kernels : MappingKernelManager Kernels := {
  contains := running;
  start_kernel k path kernel_name :=
    match kernel_name with
    | Some "nosuchkernel" => (Raise (Exception "NoSuchKernel"), k)
    | _ => (Return "k-new", (k ++ [("k-new", true)])%list)
    end;
  shutdown_kernel k kernel_id :=
    if shuts_down k kernel_id then (Return tt, forget k kernel_id)
    else (Raise (Exception "shutdown failed"), k);
  kernel_state k kernel_id := "idle"
}.

#[global] Instance contents : ContentsManager unit := {
  get_kernel_path _ path := path
}.

Definition uuids (n : nat) : string :=
  match n with
  | 0 => "u0"
  | 1 => "u1"
  | _ => "u2"
  end.

(** A manager that has not touched its database yet. *)
Definition manager (k : Kernels) (table : list Row) : SessionManager Kernels unit :=
  mkSessionManager ":memory:" None None k tt table [] uuids 0 [].

Definition row_a : Row := mkRow "A" (Some "/a.ipynb") (Some "a") (Some "notebook") (Some "k1").
Definition row_b : Row := mkRow "B" (Some "/b.ipynb") (Some "b") (Some "notebook") (Some "k2").
(** A second session on the path of [row_a], as a rename through
    [update_session] or a second [create_session] leaves it. *)
Definition row_a' : Row := mkRow "A2" (Some "/a.ipynb") (Some "a") (Some "console") (Some "k2").

Definition only_k2 : Kernels := [("k2", true)].
Definition both : Kernels := [("k1", true); ("k2", true)].
Definition stuck_k1 : Kernels := [("k1", false); ("k2", true)].

(** A directory, a text file, a database, an empty file, a file that
    may not be read, a file named with a trailing slash (pathlib drops
    the slash, [open] does not), and nothing anywhere else. *)
Definition files : filesystem :=
  fun p =>
    if p =? "/srv" then
      mkPathView (Return IsDirectory) (Raise (Exception "IsADirectoryError"))
    else if p =? "/srv/notes.txt" then
      mkPathView (Return IsOther) (Return (list_byte_of_string "hello"))
    else if p =? "/srv/sessions.db" then
      mkPathView (Return IsOther)
        (Return (list_byte_of_string "SQLite format 3" ++ [x00; x10; x00])%list)
    else if p =? "/srv/empty.db" then
      mkPathView (Return IsOther) (Return [])
    else if p =? "/srv/locked.db" then
      mkPathView (Return IsOther) (Raise (Exception "PermissionError"))
    else if p =? "/srv/sessions.db/" then
      mkPathView (Return IsOther) (Raise (Exception "NotADirectoryError"))
    else
      mkPathView (Return NoEntry) (Raise (Exception "FileNotFoundError")).

(** A kernel manager whose kernels are gone as soon as they are
    started. *)
Inductive Stillborn : Type := stillborn.

#[global] Instance stillborn_kernels : MappingKernelManager Stillborn := {
  contains _ _ := false;
  start_kernel k _ _ := (Return "k-gone", k);
  shutdown_kernel k _ := (Raise (Exception "no such kernel"), k);
  kernel_state _ _ := "dead"
}.


End Demo.

(** * jupyter_server.utils *)

(** ** Python [str] methods *)

(** [s.startswith(prefix)] *)
Definition str_startswith (s prefix : string) : bool := String.prefix prefix s.

(** [s.endswith(suffix)]: some tail of [s] is [suffix]. *)
Fixpoint str_endswith (s suffix : string) : bool :=
  (s =? suffix)
  || match s with
     | EmptyString => false
     | String _ s' => str_endswith s' suffix
     end.

(** [s.lstrip(c)], [s.rstrip(c)] and [s.strip(c)] for one character. *)
Fixpoint str_lstrip (c : ascii) (s : string) : string :=
  match s with
  | EmptyString => EmptyString
  | String a s' => if Ascii.eqb a c then str_lstrip c s' else s
  end.

Fixpoint str_rstrip (c : ascii) (s : string) : string :=
  match s with
  | EmptyString => EmptyString
  | String a s' =>
      match str_rstrip c s' with
      | EmptyString => if Ascii.eqb a c then EmptyString else String a EmptyString
      | r => String a r
      end
  end.

Definition str_strip (c : ascii) (s : string) : string :=
  str_rstrip c (str_lstrip c s).

(** The scan of [s.replace(old, new)] for a non-empty [old]: leftmost
    occurrences, not overlapping; [skip] characters of a matched
    occurrence are still to be passed over. *)
Fixpoint replace_from (old new : string) (skip : nat) (s : string) : string :=
  match s with
  | EmptyString => EmptyString
  | String c s' =>
      match skip with
      | S n => replace_from old new n s'
      | O =>
          if String.prefix old s
          then new ++ replace_from old new (String.length old - 1) s'
          else String c (replace_from old new 0 s')
      end
  end.

(** [s.replace(old, new)]; an empty [old] matches before every
    character and at the end. *)
Definition str_replace (s old new : string) : string :=
  match old with
  | EmptyString =>
      new ++ String.concat "" (map (fun c => String c new) (list_ascii_of_string s))
  | _ => replace_from old new 0 s
  end.

(** [needle in s] *)
Fixpoint str_in (needle s : string) : bool :=
  String.prefix needle s
  || match s with
     | EmptyString => false
     | String _ s' => str_in needle s'
     end.

(** ** The functions *)

(** A piece that is not empty and has no slash at either end. *)
Definition clean_piece (s : string) : Prop :=
  s <> "" /\ str_startswith s "/" = false /\ str_endswith s "/" = false.

(** [pieces[0]] of no piece at all is an [IndexError]. *)
Definition url_path_join (pieces : list string) : outcome string :=
  match pieces with
  | [] => Raise (Exception "IndexError")
  | first :: _ =>
      let initial := str_startswith first "/" in
      let final := str_endswith (last pieces "") "/" in
      let stripped := map (str_strip "/") pieces in
      let result :=
        String.concat "/" (filter (fun s => negb (s =? "")) stripped) in
      let result := if initial then "/" ++ result else result in
      let result := if final then result ++ "/" else result in
      let result := if result =? "//" then "/" else result in
      Return result
  end.

Definition urlencode_unix_socket_path (socket_path : string) : string :=
  str_replace socket_path "/" "%2F".

Definition urldecode_unix_socket_path (socket_path : string) : string :=
  str_replace socket_path "%2F" "/".

Definition urlencode_unix_socket (socket_path : string) : string :=
  "http+unix://" ++ urlencode_unix_socket_path socket_path.

(** * Properties *)

Section Properties.

Context {K C : Type} `{MappingKernelManager K} `{ContentsManager C}.

#[local] Abbreviation Manager := (SessionManager K C).

(** ** The storage handle and [execute] *)

Ltac by_handles self :=
  unfold executed, execute, opened, cursor, connection, bind;
  destruct (_cursor self); [| destruct (_connection self)]; simpl;
  try match goal with
      | |- context [run ?q ?t] => destruct (run q t) eqn:?; destruct (writes q)
      end; reflexivity.

Lemma cursor_opened (self : Manager) :
  exists c, cursor self = (Return c, opened self).
Proof.
  unfold opened, cursor, connection, bind.
  destruct (_cursor self); [| destruct (_connection self)]; simpl; eauto.
Qed.

Lemma session_opened (self : Manager) : session (opened self) = session self.
Proof. by_handles self. Qed.

Lemma execute_executed (q : sql) (self : Manager) :
  execute q self = (Return (snd (run q (session self))), executed q self).
Proof. by_handles self. Qed.

Lemma session_executed (q : sql) (self : Manager) :
  session (executed q self) = fst (run q (session self)).
Proof. by_handles self. Qed.

Lemma kernel_manager_executed (q : sql) (self : Manager) :
  kernel_manager (executed q self) = kernel_manager self.
Proof. by_handles self. Qed.

Lemma contents_manager_executed (q : sql) (self : Manager) :
  contents_manager (executed q self) = contents_manager self.
Proof. by_handles self. Qed.


Lemma history_executed (q : sql) (self : Manager) :
  history (executed q self)
  = (history self ++ if writes q then [ev_execute q] else [])%list.
Proof.
  unfold executed, execute, opened, cursor, connection, bind.
  destruct (_cursor self); [| destruct (_connection self)]; simpl;
    destruct (run q (session self)); destruct (writes q); simpl;
    rewrite ?app_nil_r; reflexivity.
Qed.

Lemma executed_select (conditions : list (string * value)) (self : Manager) :
  session (executed (SELECT conditions) self) = session self
  /\ history (executed (SELECT conditions) self) = history self.
Proof.
  rewrite session_executed, history_executed. simpl.
  now rewrite app_nil_r.
Qed.

(** ** Reconciliation *)

Lemma row_to_model_alive (row : Row) (tolerate_culled : bool) (self : Manager) :
  alive (kernel_manager self) row = true ->
  row_to_model row tolerate_culled self
  = (Return (Some (composed (kernel_manager self) row)), self).
Proof.
  unfold alive, row_to_model, bind, kernel_culled. intros ->. reflexivity.
Qed.

Lemma row_to_model_culled (row : Row) (tolerate_culled : bool) (self : Manager) :
  alive (kernel_manager self) row = false ->
  row_to_model row tolerate_culled self
  = (if tolerate_culled then Return None else Raise KeyError,
     executed (DELETE (Some (col_session_id row))) self).
Proof.
  unfold alive, row_to_model, bind, kernel_culled. intros ->. simpl.
  rewrite execute_executed. now destruct tolerate_culled.
Qed.

(** ** [list_sessions] *)

Lemma filter_filter_and {A} (f g : A -> bool) (l : list A) :
  filter f (filter g l) = filter (fun x => g x && f x) l.
Proof.
  induction l as [| x l IH]; simpl; [reflexivity |].
  destruct (g x); simpl; [destruct (f x) |]; now rewrite IH.
Qed.

Lemma culled_table_alive (k : K) (row : Row) (rows table : list Row) :
  alive k row = true ->
  culled_table k (row :: rows) table = culled_table k rows table.
Proof.
  intros Hrow. unfold culled_table. apply filter_ext. intros r. simpl.
  now rewrite Hrow.
Qed.

Lemma culled_table_dead (k : K) (row : Row) (rows table : list Row) :
  alive k row = false ->
  culled_table k (row :: rows) table
  = culled_table k rows
      (fst (run (DELETE (Some (col_session_id row))) table)).
Proof.
  intros Hrow. unfold culled_table. simpl. rewrite filter_filter_and.
  apply filter_ext. intros r. rewrite Hrow. simpl.
  unfold has_session_id. simpl. rewrite (String.eqb_sym (col_session_id r)).
  now rewrite negb_orb.
Qed.

Lemma list_sessions_loop_spec (rows : list Row) :
  forall (result : list (option Model)) (self : Manager),
  exists self',
    list_sessions_loop rows result self
    = (Return (result ++ map (fun r => Some (composed (kernel_manager self) r))
                             (filter (alive (kernel_manager self)) rows))%list,
       self')
    /\ kernel_manager self' = kernel_manager self
    /\ session self' = culled_table (kernel_manager self) rows (session self)
    /\ history self'
       = (history self
          ++ map (fun d => ev_execute (DELETE (Some (col_session_id d))))
                 (filter (fun r => negb (alive (kernel_manager self) r)) rows))%list.
Proof.
  induction rows as [| row rest IH]; intros result self; simpl.
  - exists self. rewrite !app_nil_r. repeat split.
    unfold culled_table. simpl. clear. induction (session self); simpl; congruence.
  - destruct (alive (kernel_manager self) row) eqn:Hrow; simpl.
    + rewrite (row_to_model_alive _ _ _ Hrow).
      destruct (IH (result ++ [Some (composed (kernel_manager self) row)])%list self)
        as (self' & Hrun & Hk & Ht & Hh).
      exists self'. rewrite Hrun, <- app_assoc. simpl.
      rewrite culled_table_alive by assumption. auto.
    + rewrite (row_to_model_culled _ _ _ Hrow).
      set (self1 := executed (DELETE (Some (col_session_id row))) self).
      destruct (IH result self1) as (self' & Hrun & Hk & Ht & Hh).
      assert (Hk1 : kernel_manager self1 = kernel_manager self)
        by apply kernel_manager_executed.
      rewrite Hk1 in *.
      exists self'. rewrite Hrun. repeat split; try assumption.
      * rewrite Ht. unfold self1. rewrite session_executed.
        now rewrite culled_table_dead.
      * rewrite Hh. unfold self1. rewrite history_executed. simpl.
        now rewrite <- app_assoc.
Qed.

Lemma select_all (table : list Row) : snd (run (SELECT []) table) = table.
Proof.
  simpl. induction table as [| r table IH]; simpl; congruence.
Qed.

Lemma composed_kernel_id (k : K) (r row : Row) :
  composed k r = composed k row -> col_kernel_id r = col_kernel_id row.
Proof.
  unfold composed, model_of, kernel_model. intros E.
  now injection E.
Qed.

Lemma list_sessions_run (self : Manager) :
  exists self',
    list_sessions self
    = (Return (map (fun r => Some (composed (kernel_manager self) r))
                   (filter (alive (kernel_manager self)) (session self))),
       self')
    /\ kernel_manager self' = kernel_manager self
    /\ session self'
       = culled_table (kernel_manager self) (session self) (session self)
    /\ history self'
       = (history self
          ++ map (fun d => ev_execute (DELETE (Some (col_session_id d))))
                 (filter (fun r => negb (alive (kernel_manager self) r))
                         (session self)))%list.
Proof.
  unfold list_sessions, bind. rewrite execute_executed, select_all.
  set (self1 := executed (SELECT []) self).
  destruct (list_sessions_loop_spec (session self) [] self1)
    as (self' & Hrun & Hk & Ht & Hh).
  assert (Hk1 : kernel_manager self1 = kernel_manager self)
    by apply kernel_manager_executed.
  destruct (executed_select [] self) as [Ht1 Hh1]. fold self1 in Ht1, Hh1.
  rewrite Hk1, Ht1, Hh1 in *. simpl in Hrun.
  exists self'. auto.
Qed.

(** [list_sessions] in terms of the models [row_to_model] composes. *)
Lemma list_sessions_composed (self : Manager) :
  let k := kernel_manager self in
  let snapshot := session self in
  let result := map (fun r => Some (composed k r)) (filter (alive k) snapshot) in
  let self' := snd (list_sessions self) in
  fst (list_sessions self) = Return result
  /\ (forall row, In row snapshot -> alive k row = true ->
        In (Some (composed k row)) result)
  /\ (forall row, In row snapshot -> alive k row = false ->
        ~ In row (session self') /\ ~ In (Some (composed k row)) result)
  /\ kernel_manager self' = k
  /\ (forallb (fun row => negb (alive k row)) snapshot = true ->
        fst (list_sessions self) = Return [] /\ session self' = []).
Proof.
  intros k snapshot result self'.
  destruct (list_sessions_run self) as (s' & Hrun & Hk & Ht & _).
  subst self'. rewrite Hrun. simpl. fold k snapshot in Ht, Hk |- *. fold result.
  assert (Hgone : forall row, In row snapshot -> alive k row = false ->
                              ~ In row (session s')).
  { intros row Hin Hdead Hstill. rewrite Ht in Hstill.
    apply filter_In in Hstill. destruct Hstill as [_ Hkeep].
    apply negb_true_iff in Hkeep.
    assert (Hex : existsb (fun d => negb (alive k d)
                                    && (col_session_id d =? col_session_id row))
                          snapshot = true).
    { apply existsb_exists. exists row. split; [assumption |].
      now rewrite Hdead, String.eqb_refl. }
    congruence. }
  split; [reflexivity |]. split; [| split; [| split; [assumption |]]].
  - intros row Hin Halive. unfold result.
    apply (in_map (fun r => Some (composed k r))).
    apply filter_In. auto.
  - intros row Hin Hdead. split; [now apply Hgone |].
    intros Hres. unfold result in Hres. apply in_map_iff in Hres.
    destruct Hres as (r & Heq & Hr). apply filter_In in Hr.
    destruct Hr as [_ Hr].
    assert (Heq' : composed k r = composed k row) by congruence.
    apply composed_kernel_id in Heq'. unfold alive in *. congruence.
  - intros Hall. split.
    + f_equal. unfold result.
      assert (E : filter (alive k) snapshot = []).
      { clear - Hall. induction snapshot as [| r l IH]; simpl in *; [reflexivity |].
        apply andb_true_iff in Hall. destruct Hall as [Hr Hl].
        apply negb_true_iff in Hr. rewrite Hr. auto. }
      now rewrite E.
    + destruct (session s') as [| r l] eqn:E; [reflexivity | exfalso].
      assert (Hin : In r (session s')) by (rewrite E; now left).
      assert (Hin0 : In r snapshot).
      { rewrite E, Ht in Hin. apply filter_In in Hin. tauto. }
      apply (Hgone r Hin0); [| now left].
      rewrite forallb_forall in Hall. apply negb_true_iff. auto.
Qed.

(** C1.  [list_sessions] works on the rows it fetched at its start: it
    returns, without raising, one model for each row whose kernel is
    alive and no other, in the order of the table; the model of a row
    carries the row's session id as [id], its path, name and type, the
    status model of its kernel, and the [notebook] pair when the type is
    ["notebook"]; every row whose kernel is dead is gone from the table
    afterwards and has no model in the result; when every kernel is dead
    the result is the empty list and the table is empty. *)
Theorem list_sessions_reconciles (self : Manager) :
  let k := kernel_manager self in
  let snapshot := session self in
  let model := fun r : Row =>
    mkModel (col_session_id r) (col_path r) (col_name r) (col_type r)
      (mkKernelModel (col_kernel_id r) (kernel_state k (col_kernel_id r)))
      (if py_eq (col_type r) (Some "notebook")
       then Some (col_path r, col_name r) else None) in
  let result := map (fun r => Some (model r)) (filter (alive k) snapshot) in
  let self' := snd (list_sessions self) in
  fst (list_sessions self) = Return result
  /\ (forall row, In row snapshot -> alive k row = true ->
        In (Some (model row)) result)
  /\ (forall row, In row snapshot -> alive k row = false ->
        ~ In row (session self') /\ ~ In (Some (model row)) result)
  /\ kernel_manager self' = k
  /\ (forallb (fun row => negb (alive k row)) snapshot = true ->
        fst (list_sessions self) = Return [] /\ session self' = []).
Proof.
  exact (list_sessions_composed self).
Qed.

(** ** [get_session] *)

Lemma check_columns_ok (columns : list string) (self : Manager) :
  forallb in_columns columns = true ->
  check_columns columns self = (Return tt, self).
Proof.
  induction columns as [| c rest IH]; simpl; [reflexivity |].
  intros Hall. apply andb_true_iff in Hall. destruct Hall as [-> Hrest]. auto.
Qed.

Lemma check_columns_bad (columns : list string) (self : Manager) :
  forallb in_columns columns = false ->
  check_columns columns self = (Raise TypeError, self).
Proof.
  induction columns as [| c rest IH]; simpl; [discriminate |].
  destruct (in_columns c); simpl; auto.
Qed.

Lemma fetchone_filter (f : Row -> bool) (table : list Row) :
  fetchone (filter f table) = find f table.
Proof.
  induction table as [| r table IH]; simpl; [reflexivity |].
  destruct (f r); simpl; auto.
Qed.

(** What [get_session] does once its selector passed the checks. *)
Lemma get_session_run (kwargs : list (string * value)) (self : Manager) :
  kwargs <> [] ->
  forallb in_columns (map fst kwargs) = true ->
  get_session kwargs self
  = match find (row_matches kwargs) (session self) with
    | None => (Raise (HTTPError 404), executed (SELECT kwargs) self)
    | Some row =>
        if alive (kernel_manager self) row
        then (Return (Some (composed (kernel_manager self) row)),
              executed (SELECT kwargs) self)
        else (Raise (HTTPError 404),
              executed (DELETE (Some (col_session_id row)))
                       (executed (SELECT kwargs) self))
    end.
Proof.
  intros Hne Hcols. unfold get_session.
  destruct kwargs as [| kv kwargs']; [congruence |].
  set (kwargs := kv :: kwargs') in *.
  unfold bind. rewrite (check_columns_ok _ _ Hcols), execute_executed.
  cbn [snd run]. rewrite fetchone_filter.
  destruct (find (row_matches kwargs) (session self)) as [row |];
    [| reflexivity].
  unfold except_KeyError.
  set (self1 := executed (SELECT kwargs) self).
  assert (Hk1 : kernel_manager self1 = kernel_manager self)
    by apply kernel_manager_executed.
  destruct (alive (kernel_manager self) row) eqn:Hrow.
  - rewrite row_to_model_alive by congruence. now rewrite Hk1.
  - rewrite row_to_model_culled by congruence. reflexivity.
Qed.

(** C2.  With a non-empty selector over the columns of the table,
    [get_session] raises HTTP 404 when no row matches, leaving the table
    as it was; and when the first matching row has a dead kernel it
    raises HTTP 404 after the DELETE for that row's session id has run, so
    that the row is no longer in the table. *)
Theorem get_session_not_found (kwargs : list (string * value)) (self : Manager) :
  kwargs <> [] ->
  forallb in_columns (map fst kwargs) = true ->
  let self' := snd (get_session kwargs self) in
  ((forall r, In r (session self) -> row_matches kwargs r = false) ->
   fst (get_session kwargs self) = Raise (HTTPError 404)
   /\ session self' = session self
   /\ history self' = history self)
  /\ (forall row,
        find (row_matches kwargs) (session self) = Some row ->
        alive (kernel_manager self) row = false ->
        fst (get_session kwargs self) = Raise (HTTPError 404)
        /\ ~ In row (session self')
        /\ session self'
           = filter (fun r => negb (col_session_id r =? col_session_id row))
                    (session self)
        /\ history self'
           = (history self
              ++ [ev_execute (DELETE (Some (col_session_id row)))])%list).
Proof.
  intros Hne Hcols self'. subst self'.
  rewrite (get_session_run self Hne Hcols).
  destruct (executed_select kwargs self) as [Ht1 Hh1].
  split.
  - intros Hnone.
    destruct (find (row_matches kwargs) (session self)) as [row |] eqn:Hfind.
    + apply find_some in Hfind. destruct Hfind as [Hin Hm].
      rewrite (Hnone row Hin) in Hm. discriminate.
    + simpl. auto.
  - intros row Hfind Hdead. rewrite Hfind, Hdead. simpl.
    rewrite session_executed, history_executed, Ht1, Hh1. simpl.
    split; [reflexivity |]. split; [| split; reflexivity].
    intros Hin. apply filter_In in Hin. destruct Hin as [_ Hkeep].
    unfold has_session_id in Hkeep. simpl in Hkeep.
    now rewrite String.eqb_refl in Hkeep.
Qed.

(** ** [delete_session] *)

Lemma row_matches_session_id (session_id : value) (r : Row) :
  row_matches [("session_id", session_id)] r = has_session_id session_id r.
Proof.
  unfold row_matches, has_session_id. simpl. apply andb_true_r.
Qed.

Lemma find_by_session_id (session_id : value) (table : list Row) :
  find (row_matches [("session_id", session_id)]) table
  = find (has_session_id session_id) table.
Proof.
  induction table as [| r table IH]; [reflexivity |].
  cbn [find]. now rewrite row_matches_session_id, IH.
Qed.

Lemma find_deleted (session_id : value) (table : list Row) :
  find (has_session_id session_id)
       (filter (fun r => negb (has_session_id session_id r)) table) = None.
Proof.
  induction table as [| r table IH]; simpl; [reflexivity |].
  destruct (has_session_id session_id r) eqn:E; simpl; [assumption |].
  now rewrite E.
Qed.

(** [get_session(session_id=...)] on the first row with that id. *)
Lemma get_session_by_id (session_id : value) (self : Manager) :
  get_session [("session_id", session_id)] self
  = match find (has_session_id session_id) (session self) with
    | None => (Raise (HTTPError 404),
               executed (SELECT [("session_id", session_id)]) self)
    | Some row =>
        if alive (kernel_manager self) row
        then (Return (Some (composed (kernel_manager self) row)),
              executed (SELECT [("session_id", session_id)]) self)
        else (Raise (HTTPError 404),
              executed (DELETE (Some (col_session_id row)))
                       (executed (SELECT [("session_id", session_id)]) self))
    end.
Proof.
  rewrite get_session_run by (discriminate || reflexivity).
  now rewrite find_by_session_id.
Qed.

(** C3.  For a session id whose first row has a live kernel:
    [delete_session] calls [shutdown_kernel] on that row's kernel before
    it executes the DELETE.  When the shutdown raises, the same exception
    leaves [delete_session], no DELETE has run and the table is as it
    was.  When the shutdown returns, the DELETE follows it in the
    history, no row keeps the session id, and [get_session] on that id
    raises HTTP 404. *)
Theorem delete_session_shutdown_first
    (session_id : value) (row : Row) (self : Manager) :
  find (has_session_id session_id) (session self) = Some row ->
  alive (kernel_manager self) row = true ->
  let self' := snd (delete_session session_id self) in
  (forall e k',
      shutdown_kernel (kernel_manager self) (col_kernel_id row) = (Raise e, k') ->
      fst (delete_session session_id self) = Raise e
      /\ session self' = session self
      /\ history self'
         = (history self ++ [ev_shutdown_kernel (col_kernel_id row)])%list)
  /\ (forall u k',
        shutdown_kernel (kernel_manager self) (col_kernel_id row) = (Return u, k') ->
        fst (delete_session session_id self) = Return tt
        /\ history self'
           = (history self
              ++ [ev_shutdown_kernel (col_kernel_id row);
                  ev_execute (DELETE session_id)])%list
        /\ kernel_manager self' = k'
        /\ session self'
           = filter (fun r => negb (has_session_id session_id r)) (session self)
        /\ (forall r, In r (session self') -> has_session_id session_id r = false)
        /\ fst (get_session [("session_id", session_id)] self')
           = Raise (HTTPError 404)).
Proof.
  intros Hfind Halive self'. subst self'.
  unfold delete_session, bind.
  rewrite get_session_by_id, Hfind, Halive.
  set (self1 := executed (SELECT [("session_id", session_id)]) self).
  assert (Hk1 : kernel_manager self1 = kernel_manager self)
    by apply kernel_manager_executed.
  destruct (executed_select [("session_id", session_id)] self) as [Ht1 Hh1].
  fold self1 in Ht1, Hh1.
  cbn [composed model_of kernel kernel_model kernel_model_id]. rewrite Hk1.
  split.
  - intros e k' Hshut. rewrite Hshut. simpl. rewrite Ht1, Hh1. auto.
  - intros u k' Hshut. rewrite Hshut. rewrite execute_executed. cbn [fst snd].
    set (self2 := log (ev_shutdown_kernel (col_kernel_id row))
                      (set_kernel_manager k' self1)).
    assert (Ht' : session (executed (DELETE session_id) self2)
                  = filter (fun r => negb (has_session_id session_id r))
                           (session self)).
    { rewrite session_executed. simpl. now rewrite Ht1. }
    unfold ret. cbn [fst snd].
    split; [reflexivity |]. split; [| split; [| split; [| split]]].
    + rewrite history_executed. simpl. rewrite Hh1, <- app_assoc. reflexivity.
    + rewrite kernel_manager_executed. reflexivity.
    + exact Ht'.
    + intros r Hin. rewrite Ht' in Hin. apply filter_In in Hin.
      destruct Hin as [_ Hkeep]. now apply negb_true_iff in Hkeep.
    + rewrite get_session_by_id, Ht', find_deleted. reflexivity.
Qed.

(** ** [update_session] *)

Lemma in_columns_spec (column : string) :
  in_columns column = true <-> In column _columns.
Proof.
  unfold in_columns. rewrite existsb_exists. split.
  - intros (c & Hin & Heq). apply String.eqb_eq in Heq. now subst.
  - intros Hin. exists column. split; [assumption | apply String.eqb_refl].
Qed.

Lemma outside_columns (columns : list string) :
  (exists column, In column columns /\ ~ In column _columns) ->
  forallb in_columns columns = false.
Proof.
  intros (c & Hin & Hout).
  destruct (forallb in_columns columns) eqn:E; [exfalso | reflexivity].
  rewrite forallb_forall in E. apply Hout, in_columns_spec. auto.
Qed.

Lemma find_has_none (f : Row -> bool) (table : list Row) :
  (forall r, In r table -> f r = false) -> find f table = None.
Proof.
  induction table as [| r table IH]; simpl; intros Hnone; [reflexivity |].
  rewrite (Hnone r) by now left. auto.
Qed.

(** C4.  For a session id whose first row has a live kernel and a
    change set with a key outside [_columns]: [update_session] raises
    [TypeError], no statement that writes has run, and the table is as it
    was. *)
Theorem update_session_invalid_column
    (session_id : value) (row : Row) (kwargs : list (string * value))
    (self : Manager) :
  find (has_session_id session_id) (session self) = Some row ->
  alive (kernel_manager self) row = true ->
  (exists column, In column (map fst kwargs) /\ ~ In column _columns) ->
  let self' := snd (update_session session_id kwargs self) in
  fst (update_session session_id kwargs self) = Raise TypeError
  /\ session self' = session self
  /\ history self' = history self
  /\ kernel_manager self' = kernel_manager self.
Proof.
  intros Hfind Halive Hout self'. subst self'.
  pose proof (outside_columns _ Hout) as Hbad.
  unfold update_session, bind.
  rewrite get_session_by_id, Hfind, Halive.
  destruct kwargs as [| kv kwargs']; [discriminate |].
  rewrite (check_columns_bad _ _ Hbad). cbn [fst snd].
  destruct (executed_select [("session_id", session_id)] self) as [Ht1 Hh1].
  rewrite kernel_manager_executed. auto.
Qed.

(** C10.  For a session id that no row carries, [update_session] raises
    HTTP 404 whatever the change set holds, keys outside [_columns]
    included: the lookup comes first, [TypeError] is not raised, and the
    table is as it was. *)
Theorem update_session_missing_first
    (session_id : value) (kwargs : list (string * value)) (self : Manager) :
  (forall r, In r (session self) -> has_session_id session_id r = false) ->
  let self' := snd (update_session session_id kwargs self) in
  fst (update_session session_id kwargs self) = Raise (HTTPError 404)
  /\ fst (update_session session_id kwargs self) <> Raise TypeError
  /\ session self' = session self
  /\ history self' = history self.
Proof.
  intros Hnone self'. subst self'.
  unfold update_session, bind.
  rewrite get_session_by_id, (find_has_none _ _ Hnone). cbn [fst snd].
  destruct (executed_select [("session_id", session_id)] self) as [Ht1 Hh1].
  repeat split; try assumption. discriminate.
Qed.

(** ** [session_exists] *)

Lemma find_by_path (path : value) (table : list Row) :
  find (row_matches [("path", path)]) table = find (has_path path) table.
Proof.
  induction table as [| r table IH]; [reflexivity |].
  cbn [find]. rewrite IH.
  replace (row_matches [("path", path)] r) with (has_path path r);
    [reflexivity |].
  unfold row_matches, has_path. simpl. now rewrite andb_true_r.
Qed.

Lemma session_exists_run (path : value) (self : Manager) :
  session_exists path self
  = match find (has_path path) (session self) with
    | None => (Return false, executed (SELECT [("path", path)]) self)
    | Some row =>
        if alive (kernel_manager self) row
        then (Return true, executed (SELECT [("path", path)]) self)
        else (Return false,
              executed (DELETE (Some (col_session_id row)))
                       (executed (SELECT [("path", path)]) self))
    end.
Proof.
  unfold session_exists, bind. rewrite execute_executed.
  cbn [snd run]. rewrite fetchone_filter, find_by_path.
  destruct (find (has_path path) (session self)) as [row |]; [| reflexivity].
  set (self1 := executed (SELECT [("path", path)]) self).
  assert (Hk1 : kernel_manager self1 = kernel_manager self)
    by apply kernel_manager_executed.
  destruct (alive (kernel_manager self) row) eqn:Hrow.
  - rewrite row_to_model_alive by congruence. reflexivity.
  - rewrite row_to_model_culled by congruence. reflexivity.
Qed.

(** C5, as the code has it.  [session_exists] never raises; it returns
    true exactly when the first row with the path has a live kernel.
    When that row's kernel is dead it returns false and the row is gone
    from the table; if moreover every row with the path carries that
    row's session id, a second call returns false again and leaves the
    table as the first call left it. *)
Theorem session_exists_first_row (path : value) (self : Manager) :
  let k := kernel_manager self in
  let self' := snd (session_exists path self) in
  (exists b, fst (session_exists path self) = Return b)
  /\ (fst (session_exists path self) = Return true
      <-> exists row, find (has_path path) (session self) = Some row
                      /\ alive k row = true)
  /\ (forall row,
        find (has_path path) (session self) = Some row ->
        alive k row = false ->
        fst (session_exists path self) = Return false
        /\ ~ In row (session self')
        /\ ((forall r, In r (session self) -> has_path path r = true ->
                       col_session_id r = col_session_id row) ->
            fst (session_exists path self') = Return false
            /\ session (snd (session_exists path self')) = session self')).
Proof.
  intros k self'. subst self' k. rewrite session_exists_run.
  destruct (executed_select [("path", path)] self) as [Ht1 Hh1].
  destruct (find (has_path path) (session self)) as [row |] eqn:Hfind.
  - destruct (alive (kernel_manager self) row) eqn:Hrow; cbn [fst snd].
    + split; [eauto |]. split; [| intros r E; congruence].
      split; [eauto | reflexivity].
    + split; [eauto |]. split.
      { split; [discriminate |]. intros (r & E & Hr). congruence. }
      intros r E _. injection E as <-.
      set (self2 := executed (DELETE (Some (col_session_id row)))
                             (executed (SELECT [("path", path)]) self)).
      assert (Ht2 : session self2
                    = filter (fun r => negb (has_session_id
                                               (Some (col_session_id row)) r))
                             (session self)).
      { unfold self2. rewrite session_executed. simpl. now rewrite Ht1. }
      split; [reflexivity |]. split.
      * rewrite Ht2. intros Hin. apply filter_In in Hin.
        destruct Hin as [_ Hkeep]. unfold has_session_id in Hkeep.
        simpl in Hkeep. now rewrite String.eqb_refl in Hkeep.
      * intros Hsame.
        assert (Hnone : find (has_path path) (session self2) = None).
        { apply find_has_none. intros r Hin. rewrite Ht2 in Hin.
          apply filter_In in Hin. destruct Hin as [Hin Hkeep].
          destruct (has_path path r) eqn:Hp; [exfalso | reflexivity].
          unfold has_session_id in Hkeep. simpl in Hkeep.
          rewrite (Hsame r Hin Hp), String.eqb_refl in Hkeep. discriminate. }
        rewrite session_exists_run, Hnone. cbn [fst snd].
        split; [reflexivity |].
        now destruct (executed_select [("path", path)] self2).
  - cbn [fst snd]. split; [eauto |]. split.
    + split; [discriminate |]. intros (r & E & _). discriminate.
    + intros r E. discriminate.
Qed.

(** ** [create_session] *)

Lemma find_fresh (session_id : string) (row : Row) (table : list Row) :
  (forall r, In r table -> col_session_id r <> session_id) ->
  col_session_id row = session_id ->
  find (has_session_id (Some session_id)) (table ++ [row]) = Some row.
Proof.
  intros Hfresh Hrow. induction table as [| r table IH]; simpl.
  - unfold has_session_id. simpl. now rewrite Hrow, String.eqb_refl.
  - unfold has_session_id at 1. simpl.
    destruct (String.eqb_spec (col_session_id r) session_id) as [E | _].
    + exfalso. apply (Hfresh r); [now left | assumption].
    + apply IH. intros r' Hin. apply Hfresh. now right.
Qed.




(** ** The storage handle: [cursor], [connection], [close] *)

(** C9.  On a manager that has not touched its database, nothing is
    open; the first statement opens the connection and the cursor; and
    [close] then closes the cursor and clears [_cursor], but the
    connection stays in [_connection], still open. *)
Theorem close_leaves_connection_open (q : sql) (self : Manager) :
  _cursor self = None ->
  _connection self = None ->
  let used := executed q self in
  let closed := snd (close used) in
  let c := Connection (database_filepath self) in
  open_objects used = Cursor (database_filepath self) :: c :: open_objects self
  /\ _cursor used = Some (Cursor (database_filepath self))
  /\ _connection used = Some c
  /\ _cursor closed = None
  /\ ~ In (Cursor (database_filepath self)) (open_objects closed)
  /\ _connection closed = Some c
  /\ In c (open_objects closed).
Proof.
  intros Hcursor Hconnection.
  unfold executed, execute, cursor, connection, bind, close.
  rewrite Hcursor, Hconnection. simpl.
  destruct (run q (session self)) as [table rows].
  destruct (writes q); simpl; rewrite String.eqb_refl; simpl.
  all: repeat split; auto.
  all: intros [Hc | Hin]; [discriminate |];
    apply filter_In in Hin; destruct Hin as [_ Hkeep];
    simpl in Hkeep; now rewrite String.eqb_refl in Hkeep.
Qed.

(** * Further properties of the manager *)

(** ** [get_session] beyond the 404s *)

(** X1.  A selector that is empty or names a column the table lacks is
    refused with [TypeError] before the database is touched: the manager
    is left exactly as it was, its cursor not even opened. *)
Theorem get_session_refuses_untouched
    (kwargs : list (string * value)) (self : Manager) :
  kwargs = []
  \/ (exists column, In column (map fst kwargs) /\ ~ In column _columns) ->
  get_session kwargs self = (Raise TypeError, self).
Proof.
  intros [-> | Hout]; [reflexivity |].
  pose proof (outside_columns _ Hout) as Hbad.
  unfold get_session, bind.
  destruct kwargs as [| kv kwargs']; [discriminate |].
  now rewrite (check_columns_bad _ _ Hbad).
Qed.

(** X2.  When the first row the selector matches has a live kernel,
    [get_session] returns the model composed for that row, which carries
    the row's session id and kernel id, and it is a pure read: table,
    kernel manager and history are as they were. *)
Theorem get_session_found
    (kwargs : list (string * value)) (row : Row) (self : Manager) :
  kwargs <> [] ->
  forallb in_columns (map fst kwargs) = true ->
  find (row_matches kwargs) (session self) = Some row ->
  alive (kernel_manager self) row = true ->
  let self' := snd (get_session kwargs self) in
  (exists model,
      fst (get_session kwargs self) = Return (Some model)
      /\ model = composed (kernel_manager self) row
      /\ id model = col_session_id row
      /\ kernel_model_id (kernel model) = col_kernel_id row)
  /\ In row (session self)
  /\ session self' = session self
  /\ kernel_manager self' = kernel_manager self
  /\ history self' = history self.
Proof.
  intros Hne Hcols Hfind Halive self'. subst self'.
  rewrite (get_session_run self Hne Hcols), Hfind, Halive. cbn [fst snd].
  destruct (executed_select kwargs self) as [Ht1 Hh1].
  split; [eexists; repeat split |].
  split; [now apply find_some in Hfind |].
  rewrite kernel_manager_executed. auto.
Qed.

(** A successful [get_session] can be repeated with the same answer. *)
Lemma get_session_again
    (kwargs : list (string * value)) (model : option Model) (self self' : Manager) :
  get_session kwargs self = (Return model, self') ->
  fst (get_session kwargs self') = Return model
  /\ session self' = session self
  /\ kernel_manager self' = kernel_manager self
  /\ history self' = history self
  /\ exists row, find (row_matches kwargs) (session self) = Some row
                 /\ alive (kernel_manager self) row = true
                 /\ model = Some (composed (kernel_manager self) row).
Proof.
  intros Hrun.
  destruct kwargs as [| kv kwargs']; [discriminate Hrun |].
  set (kwargs := kv :: kwargs') in *.
  assert (Hne : kwargs <> []) by discriminate.
  destruct (forallb in_columns (map fst kwargs)) eqn:Hcols.
  - rewrite (get_session_run self Hne Hcols) in Hrun.
    destruct (find (row_matches kwargs) (session self)) as [row |] eqn:Hfind;
      [| discriminate Hrun].
    destruct (alive (kernel_manager self) row) eqn:Halive; [| discriminate Hrun].
    injection Hrun as <- <-.
    destruct (executed_select kwargs self) as [Ht1 Hh1].
    pose proof (kernel_manager_executed (SELECT kwargs) self) as Hk1.
    rewrite (get_session_run _ Hne Hcols), Ht1, Hk1, Hfind, Halive.
    cbn [fst]. eauto 10.
  - unfold get_session, bind in Hrun. fold kwargs in Hrun. unfold kwargs in Hrun.
    rewrite (check_columns_bad _ _ Hcols) in Hrun. discriminate Hrun.
Qed.

(** ** [create_session] and what follows it *)

Lemma save_session_unfold
    (session_id : string) (path name type kernel_id : value) (self : Manager) :
  save_session session_id path name type kernel_id self
  = get_session [("session_id", Some session_id)]
      (executed (INSERT (mkRow session_id path name type kernel_id)) self).
Proof.
  unfold save_session, bind. now rewrite execute_executed.
Qed.

(** [create_session], branch by branch. *)
Lemma create_session_unfold
    (path name type kernel_name kernel_id : value) (self : Manager) :
  create_session path name type kernel_name kernel_id self
  = let session_id := uuid4 self (uuid_drawn self) in
    let kernel_path := get_kernel_path (contents_manager self) path in
    if is_not_None kernel_id && contains (kernel_manager self) kernel_id
    then save_session session_id path name type kernel_id (draw_uuid self)
    else
      match start_kernel (kernel_manager self) kernel_path kernel_name with
      | (Return started, k') =>
          save_session session_id path name type (Some started)
            (log (ev_start_kernel kernel_path kernel_name)
               (set_kernel_manager k'
                  (log (ev_get_kernel_path path) (draw_uuid self))))
      | (Raise e, k') =>
          (Raise e,
           log (ev_start_kernel kernel_path kernel_name)
             (set_kernel_manager k'
                (log (ev_get_kernel_path path) (draw_uuid self))))
      end.
Proof.
  unfold create_session, bind, new_session_id.
  cbn [kernel_manager draw_uuid].
  destruct (is_not_None kernel_id && contains (kernel_manager self) kernel_id);
    [reflexivity |].
  unfold start_kernel_for_session, bind, ret.
  cbn [kernel_manager contents_manager log draw_uuid].
  now destruct (start_kernel _ _ _) as [[started | e] k'].
Qed.

(** Where [create_session] hands over to [get_session]. *)
Lemma create_session_returns
    (path name type kernel_name kernel_id : value) (model : option Model)
    (self : Manager) :
  fst (create_session path name type kernel_name kernel_id self) = Return model ->
  exists started self1,
    create_session path name type kernel_name kernel_id self
    = get_session [("session_id", Some (uuid4 self (uuid_drawn self)))] self1
    /\ session self1
       = (session self
          ++ [mkRow (uuid4 self (uuid_drawn self)) path name type started])%list.
Proof.
  rewrite create_session_unfold. cbv zeta.
  destruct (is_not_None kernel_id && contains (kernel_manager self) kernel_id).
  - intros _. rewrite save_session_unfold.
    eexists kernel_id, _. split; [reflexivity |].
    now rewrite session_executed.
  - destruct (start_kernel _ _ _) as [[started | e] k']; [| discriminate].
    rewrite save_session_unfold. intros _.
    eexists (Some started), _. split; [reflexivity |].
    now rewrite session_executed.
Qed.

(** X3.  A model that [create_session] returns can be fetched again:
    its id is the identifier drawn from [uuid.uuid4], and
    [get_session(session_id=id)] right after returns the same model. *)
Theorem create_session_then_get
    (path name type kernel_name kernel_id : value) (model : Model)
    (self : Manager) :
  fst (create_session path name type kernel_name kernel_id self)
  = Return (Some model) ->
  id model = uuid4 self (uuid_drawn self)
  /\ fst (get_session [("session_id", Some (id model))]
            (snd (create_session path name type kernel_name kernel_id self)))
     = Return (Some model).
Proof.
  intros Hcreate.
  destruct (create_session_returns _ _ _ _ _ _ Hcreate)
    as (started & self1 & Heq & _).
  rewrite Heq in Hcreate |- *.
  destruct (get_session _ self1) as [out self'] eqn:Hrun.
  cbn [fst snd] in *. subst out.
  destruct (get_session_again _ _ Hrun)
    as (Hagain & _ & _ & _ & row & Hfind & _ & Hmodel).
  injection Hmodel as ->.
  assert (Hid : col_session_id row = uuid4 self (uuid_drawn self)).
  { apply find_some in Hfind. destruct Hfind as [_ Hm].
    rewrite row_matches_session_id in Hm. unfold has_session_id in Hm.
    simpl in Hm. now apply String.eqb_eq in Hm. }
  cbn [composed model_of id]. rewrite Hid. auto.
Qed.

(** X4.  When no running kernel is supplied and [start_kernel] raises,
    the exception leaves [create_session] and no row is written: the
    table is as it was, the history holds the two calls to the
    collaborators, and one identifier has been drawn all the same. *)
Theorem create_session_start_failure
    (path name type kernel_name kernel_id : value) (e : exn) (k' : K)
    (self : Manager) :
  is_not_None kernel_id && contains (kernel_manager self) kernel_id = false ->
  start_kernel (kernel_manager self)
    (get_kernel_path (contents_manager self) path) kernel_name = (Raise e, k') ->
  let self' := snd (create_session path name type kernel_name kernel_id self) in
  fst (create_session path name type kernel_name kernel_id self) = Raise e
  /\ session self' = session self
  /\ kernel_manager self' = k'
  /\ history self'
     = (history self
        ++ [ev_get_kernel_path path;
            ev_start_kernel (get_kernel_path (contents_manager self) path)
              kernel_name])%list
  /\ uuid_drawn self' = S (uuid_drawn self).
Proof.
  intros Hnew Hstart self'. subst self'.
  rewrite create_session_unfold. cbv zeta. rewrite Hnew, Hstart. simpl.
  rewrite <- app_assoc. auto.
Qed.

(** X5.  A session just created exists: when the drawn identifier is
    new to the table and no stored row has the path, [session_exists] on
    the path of a model [create_session] returned is true. *)
Theorem create_session_then_exists
    (path : string) (name type kernel_name kernel_id : value) (model : Model)
    (self : Manager) :
  (forall r, In r (session self) ->
             col_session_id r <> uuid4 self (uuid_drawn self)) ->
  (forall r, In r (session self) -> has_path (Some path) r = false) ->
  fst (create_session (Some path) name type kernel_name kernel_id self)
  = Return (Some model) ->
  fst (session_exists (Some path)
         (snd (create_session (Some path) name type kernel_name kernel_id self)))
  = Return true.
Proof.
  intros Hfresh Hpath Hcreate.
  destruct (create_session_returns _ _ _ _ _ _ Hcreate)
    as (started & self1 & Heq & Ht1).
  rewrite Heq in Hcreate |- *.
  destruct (get_session _ self1) as [out self'] eqn:Hrun.
  cbn [fst snd] in *. subst out.
  destruct (get_session_again _ _ Hrun)
    as (_ & Ht & Hk & _ & row & Hfind & Halive & _).
  set (new := mkRow (uuid4 self (uuid_drawn self)) (Some path) name type started)
    in *.
  rewrite find_by_session_id, Ht1, (find_fresh new _ Hfresh eq_refl) in Hfind.
  injection Hfind as <-.
  rewrite session_exists_run, Ht, Hk, Ht1.
  assert (Hfirst : find (has_path (Some path)) (session self ++ [new]) = Some new).
  { clear - Hpath. induction (session self) as [| r table IH]; simpl.
    - unfold has_path. simpl. now rewrite String.eqb_refl.
    - rewrite (Hpath r) by now left. apply IH. intros r' Hin. apply Hpath. now right. }
  now rewrite Hfirst, Halive.
Qed.

(** ** [update_session] beyond its refusals *)

Lemma row_set_same (c : string) (v : value) (r : Row) :
  In c _columns -> c <> "session_id" -> row_get (row_set r (c, v)) c = v.
Proof.
  intros [<- | [<- | [<- | [<- | [<- | []]]]]] Hc;
    [congruence | reflexivity ..].
Qed.

Lemma row_set_other (c c' : string) (v : value) (r : Row) :
  c' <> c -> row_get (row_set r (c, v)) c' = row_get r c'.
Proof.
  intros Hc. unfold row_set.
  repeat match goal with
         | |- context [if c =? ?x then _ else _] =>
             destruct (String.eqb_spec c x) as [-> | ?]
         end;
    try reflexivity;
    try (destruct v; [| reflexivity]);
    unfold row_get;
    repeat match goal with
           | |- context [if c' =? ?x then _ else _] =>
               destruct (String.eqb_spec c' x) as [-> | ?]
           end;
    reflexivity || contradiction.
Qed.

Lemma fold_row_set_other (kwargs : list (string * value)) :
  forall (r : Row) (c' : string),
    ~ In c' (map fst kwargs) ->
    row_get (fold_left row_set kwargs r) c' = row_get r c'.
Proof.
  induction kwargs as [| [c v] kwargs IH]; intros r c' Hout; simpl in *;
    [reflexivity |].
  rewrite IH by tauto. apply row_set_other. intros ->. tauto.
Qed.

Lemma fold_row_set_same (kwargs : list (string * value)) :
  NoDup (map fst kwargs) ->
  forall (r : Row) (c : string) (v : value),
    In (c, v) kwargs -> In c _columns -> c <> "session_id" ->
    row_get (fold_left row_set kwargs r) c = v.
Proof.
  induction kwargs as [| [c0 v0] kwargs IH]; intros Hnodup r c v Hin Hc Hsid;
    simpl in *; [contradiction |].
  inversion Hnodup as [| ? ? Hfirst Hrest]; subst.
  destruct Hin as [[= -> ->] | Hin].
  - rewrite fold_row_set_other by assumption. now apply row_set_same.
  - now apply IH.
Qed.

Lemma find_updated (session_id : value) (f : Row -> Row) (row : Row)
    (table : list Row) :
  find (has_session_id session_id) table = Some row ->
  has_session_id session_id (f row) = true ->
  find (has_session_id session_id)
       (map (fun r => if has_session_id session_id r then f r else r) table)
  = Some (f row).
Proof.
  intros Hfind Hkeeps. induction table as [| r table IH]; simpl in *;
    [discriminate |].
  destruct (has_session_id session_id r) eqn:Hr.
  - injection Hfind as ->. now rewrite Hkeeps.
  - rewrite Hr. auto.
Qed.

(** What [update_session] does to a session that exists, with a
    change set that passes the check. *)
Lemma update_session_run
    (session_id : value) (row : Row) (kwargs : list (string * value))
    (self : Manager) :
  find (has_session_id session_id) (session self) = Some row ->
  alive (kernel_manager self) row = true ->
  kwargs <> [] ->
  forallb in_columns (map fst kwargs) = true ->
  exists self',
    update_session session_id kwargs self = (Return tt, self')
    /\ session self' = fst (run (UPDATE kwargs session_id) (session self))
    /\ kernel_manager self' = kernel_manager self
    /\ history self'
       = (history self ++ [ev_execute (UPDATE kwargs session_id)])%list.
Proof.
  intros Hfind Halive Hne Hcols.
  unfold update_session, bind.
  rewrite get_session_by_id, Hfind, Halive.
  destruct kwargs as [| kv kwargs']; [congruence |].
  rewrite (check_columns_ok _ _ Hcols), execute_executed. unfold ret.
  eexists. split; [reflexivity |].
  destruct (executed_select [("session_id", session_id)] self) as [Ht1 Hh1].
  rewrite session_executed, history_executed, !kernel_manager_executed, Ht1, Hh1.
  auto.
Qed.

(** X6.  A change set over the columns of the table, applied to a
    session that exists, returns normally, writes with one UPDATE, keeps
    the number of rows, and leaves every row of another session in the
    table. *)
Theorem update_session_applies
    (session_id : value) (row : Row) (kwargs : list (string * value))
    (self : Manager) :
  find (has_session_id session_id) (session self) = Some row ->
  alive (kernel_manager self) row = true ->
  kwargs <> [] ->
  forallb in_columns (map fst kwargs) = true ->
  let self' := snd (update_session session_id kwargs self) in
  fst (update_session session_id kwargs self) = Return tt
  /\ history self'
     = (history self ++ [ev_execute (UPDATE kwargs session_id)])%list
  /\ kernel_manager self' = kernel_manager self
  /\ List.length (session self') = List.length (session self)
  /\ (forall r, In r (session self) -> has_session_id session_id r = false ->
                In r (session self')).
Proof.
  intros Hfind Halive Hne Hcols self'. subst self'.
  destruct (@update_session_run session_id row kwargs self Hfind Halive Hne Hcols)
    as (s' & -> & Ht & Hk & Hh).
  cbn [fst snd]. rewrite Ht. cbn [fst run].
  split; [reflexivity |]. split; [assumption |]. split; [assumption |].
  split; [apply length_map |].
  intros r Hin Hother. apply in_map_iff. exists r.
  now rewrite Hother.
Qed.

(** X7.  What [update_session] writes, [get_session] reads back: for
    a change set with distinct keys, after the update of an existing
    session the model fetched by its id is composed from the first row
    of the session with every changed column at its new value and every
    other column as it was, as long as the row's kernel, updated or not,
    is alive. *)
Theorem update_session_then_get
    (session_id : string) (row : Row) (kwargs : list (string * value))
    (self : Manager) :
  find (has_session_id (Some session_id)) (session self) = Some row ->
  alive (kernel_manager self) row = true ->
  kwargs <> [] ->
  forallb in_columns (map fst kwargs) = true ->
  NoDup (map fst kwargs) ->
  ~ In "session_id" (map fst kwargs) ->
  alive (kernel_manager self) (fold_left row_set kwargs row) = true ->
  let updated := fold_left row_set kwargs row in
  let self' := snd (update_session (Some session_id) kwargs self) in
  fst (get_session [("session_id", Some session_id)] self')
  = Return (Some (composed (kernel_manager self) updated))
  /\ (forall c v, In (c, v) kwargs -> row_get updated c = v)
  /\ (forall c, ~ In c (map fst kwargs) -> row_get updated c = row_get row c).
Proof.
  intros Hfind Halive Hne Hcols Hnodup Hsid Halive' updated self'.
  subst self'.
  destruct (@update_session_run (Some session_id) row kwargs self
              Hfind Halive Hne Hcols) as (s' & -> & Ht & Hk & _).
  cbn [fst snd].
  assert (Hkeeps : has_session_id (Some session_id) updated = true).
  { pose proof (fold_row_set_other kwargs row "session_id" Hsid) as E.
    fold updated in E. cbn in E. injection E as E.
    apply find_some in Hfind. destruct Hfind as [_ Hrow].
    unfold has_session_id in *. now rewrite E. }
  split; [| split].
  - rewrite get_session_by_id, Ht, Hk. cbn [fst run].
    rewrite (@find_updated (Some session_id) (fold_left row_set kwargs) row
               (session self) Hfind Hkeeps).
    now rewrite Halive'.
  - intros c v Hin. apply (@fold_row_set_same kwargs Hnodup row c v Hin).
    + apply in_columns_spec. rewrite forallb_forall in Hcols. apply Hcols.
      apply in_map_iff. now exists (c, v).
    + intros ->. apply Hsid. apply in_map_iff. now exists ("session_id", v).
  - intros c Hout. now apply fold_row_set_other.
Qed.

(** X8.  An empty change set is no change: for a session that exists,
    [update_session] returns normally with the table and the history as
    they were. *)
Theorem update_session_no_changes
    (session_id : value) (row : Row) (self : Manager) :
  find (has_session_id session_id) (session self) = Some row ->
  alive (kernel_manager self) row = true ->
  let self' := snd (update_session session_id [] self) in
  fst (update_session session_id [] self) = Return tt
  /\ session self' = session self
  /\ history self' = history self
  /\ kernel_manager self' = kernel_manager self.
Proof.
  intros Hfind Halive self'. subst self'.
  unfold update_session, bind, ret.
  rewrite get_session_by_id, Hfind, Halive. cbn [fst snd].
  destruct (executed_select [("session_id", session_id)] self) as [Ht1 Hh1].
  rewrite kernel_manager_executed. auto.
Qed.

(** X9.  A session whose kernel died cannot be updated: whatever the
    change set, [update_session] raises HTTP 404, the only statement that
    writes is the DELETE that culls the session, and no UPDATE runs. *)
Theorem update_session_culls
    (session_id : value) (row : Row) (kwargs : list (string * value))
    (self : Manager) :
  find (has_session_id session_id) (session self) = Some row ->
  alive (kernel_manager self) row = false ->
  let self' := snd (update_session session_id kwargs self) in
  fst (update_session session_id kwargs self) = Raise (HTTPError 404)
  /\ history self'
     = (history self ++ [ev_execute (DELETE (Some (col_session_id row)))])%list
  /\ session self'
     = filter (fun r => negb (has_session_id (Some (col_session_id row)) r))
              (session self)
  /\ ~ In row (session self').
Proof.
  intros Hfind Hdead self'. subst self'.
  unfold update_session, bind.
  rewrite get_session_by_id, Hfind, Hdead. cbn [fst snd].
  destruct (executed_select [("session_id", session_id)] self) as [Ht1 Hh1].
  rewrite session_executed, history_executed, Ht1, Hh1. cbn [fst run writes].
  repeat split.
  intros Hin. apply filter_In in Hin. destruct Hin as [_ Hkeep].
  unfold has_session_id in Hkeep. simpl in Hkeep.
  now rewrite String.eqb_refl in Hkeep.
Qed.

(** ** [delete_session] when there is nothing to shut down *)

(** X10.  When no row with the session id has a live kernel, either no
    row at all or a first row on a dead kernel, [delete_session] raises
    HTTP 404 and never calls [shutdown_kernel]: the kernel manager is as
    it was and the history gains at most the DELETE that culls the
    row. *)
Theorem delete_session_not_found
    (session_id : value) (self : Manager) :
  (forall row, find (has_session_id session_id) (session self) = Some row ->
               alive (kernel_manager self) row = false) ->
  let self' := snd (delete_session session_id self) in
  fst (delete_session session_id self) = Raise (HTTPError 404)
  /\ kernel_manager self' = kernel_manager self
  /\ history self'
     = (history self
        ++ match find (has_session_id session_id) (session self) with
           | Some row => [ev_execute (DELETE (Some (col_session_id row)))]
           | None => []
           end)%list
  /\ (forall kernel_id,
        In (ev_shutdown_kernel kernel_id) (history self') ->
        In (ev_shutdown_kernel kernel_id) (history self)).
Proof.
  intros Hdead self'. subst self'.
  unfold delete_session, bind. rewrite get_session_by_id.
  destruct (executed_select [("session_id", session_id)] self) as [Ht1 Hh1].
  destruct (find (has_session_id session_id) (session self)) as [row |].
  - rewrite (Hdead row eq_refl). cbn [fst snd].
    rewrite history_executed, !kernel_manager_executed, Hh1. cbn [writes].
    repeat split. intros kernel_id Hin. apply in_app_or in Hin.
    destruct Hin as [Hin | [Hin | []]]; [assumption | discriminate Hin].
  - cbn [fst snd]. rewrite kernel_manager_executed, Hh1, app_nil_r. auto.
Qed.

(** ** [list_sessions] once more *)

Lemma filter_all {A} (f : A -> bool) (l : list A) :
  (forall x, In x l -> f x = true) -> filter f l = l.
Proof.
  induction l as [| x l IH]; simpl; intros Hall; [reflexivity |].
  rewrite (Hall x) by now left. f_equal. auto.
Qed.

Lemma filter_none {A} (f : A -> bool) (l : list A) :
  (forall x, In x l -> f x = false) -> filter f l = [].
Proof.
  induction l as [| x l IH]; simpl; intros Hall; [reflexivity |].
  rewrite (Hall x) by now left. auto.
Qed.

Lemma culled_table_alive_rows (k : K) (rows : list Row) (r : Row) :
  In r (culled_table k rows rows) -> alive k r = true.
Proof.
  unfold culled_table. intros Hin. apply filter_In in Hin.
  destruct Hin as [Hin Hkeep]. apply negb_true_iff in Hkeep.
  destruct (alive k r) eqn:Hr; [reflexivity | exfalso].
  assert (Hex : existsb (fun d => negb (alive k d)
                                  && (col_session_id d =? col_session_id r))
                        rows = true).
  { apply existsb_exists. exists r. now rewrite Hr, String.eqb_refl. }
  congruence.
Qed.

Lemma NoDup_map_eq {A B} (f : A -> B) (l : list A) (a b : A) :
  NoDup (map f l) -> In a l -> In b l -> f a = f b -> a = b.
Proof.
  induction l as [| x l IH]; simpl; intros Hnodup Ha Hb Hf; [contradiction |].
  inversion Hnodup as [| ? ? Hx Hl]; subst.
  destruct Ha as [-> | Ha], Hb as [-> | Hb]; auto.
  - exfalso. apply Hx. rewrite Hf. now apply in_map.
  - exfalso. apply Hx. rewrite <- Hf. now apply in_map.
Qed.

Lemma culled_table_distinct_ids (k : K) (rows : list Row) :
  NoDup (map col_session_id rows) ->
  culled_table k rows rows = filter (alive k) rows.
Proof.
  intros Hnodup. unfold culled_table. apply filter_ext_in. intros r Hin.
  destruct (alive k r) eqn:Hr.
  - apply negb_true_iff.
    destruct (existsb _ rows) eqn:Hex; [exfalso | reflexivity].
    apply existsb_exists in Hex. destruct Hex as (d & Hd & Hsame).
    apply andb_true_iff in Hsame. destruct Hsame as [Hdead Hid].
    apply String.eqb_eq in Hid.
    rewrite (NoDup_map_eq col_session_id rows d r Hnodup Hd Hin Hid) in Hdead.
    rewrite Hr in Hdead. discriminate.
  - apply negb_false_iff. apply existsb_exists. exists r.
    now rewrite Hr, String.eqb_refl.
Qed.

(** X11.  A second [list_sessions] finds nothing left to cull: it
    leaves the table and the history as the first call left them and
    returns the models of the rows that remain; when the session ids of
    the table are distinct, that is the result of the first call. *)
Theorem list_sessions_twice (self : Manager) :
  let self' := snd (list_sessions self) in
  session (snd (list_sessions self')) = session self'
  /\ history (snd (list_sessions self')) = history self'
  /\ fst (list_sessions self')
     = Return (map (fun r => Some (composed (kernel_manager self) r))
                   (session self'))
  /\ (NoDup (map col_session_id (session self)) ->
      fst (list_sessions self') = fst (list_sessions self)).
Proof.
  intros self'. subst self'.
  destruct (list_sessions_run self) as (s1 & Hrun1 & Hk1 & Ht1 & _).
  rewrite Hrun1. cbn [fst snd].
  destruct (list_sessions_run s1) as (s2 & Hrun2 & Hk2 & Ht2 & Hh2).
  rewrite Hrun2. cbn [fst snd]. rewrite Hk1 in *.
  assert (Halive : forall r, In r (session s1) ->
                             alive (kernel_manager self) r = true).
  { intros r Hin. rewrite Ht1 in Hin. now apply culled_table_alive_rows in Hin. }
  assert (Hall : filter (alive (kernel_manager self)) (session s1) = session s1)
    by now apply filter_all.
  split; [| split; [| split]].
  - rewrite Ht2. unfold culled_table. apply filter_all. intros r Hin.
    apply negb_true_iff.
    destruct (existsb _ (session s1)) eqn:Hex; [exfalso | reflexivity].
    apply existsb_exists in Hex. destruct Hex as (d & Hd & Hsame).
    apply andb_true_iff in Hsame. destruct Hsame as [Hdead _].
    rewrite (Halive d Hd) in Hdead. discriminate.
  - rewrite Hh2, filter_none, app_nil_r; [reflexivity |].
    intros r Hin. now rewrite (Halive r Hin).
  - now rewrite Hall.
  - intros Hnodup. rewrite Hall, Ht1.
    now rewrite (@culled_table_distinct_ids (kernel_manager self) _ Hnodup).
Qed.

(** ** What the reads leave behind *)

Lemma incl_run_delete (session_id : value) (table : list Row) :
  incl (fst (run (DELETE session_id) table)) table.
Proof.
  intros r Hin. simpl in Hin. apply filter_In in Hin. tauto.
Qed.

(** X12.  [session_exists], [get_session] and [list_sessions] add no
    row and rewrite none: every row of the table after the call was in
    the table before it, and the kernel manager is as it was. *)
Theorem reads_only_cull (self : Manager) :
  (forall path,
      incl (session (snd (session_exists path self))) (session self)
      /\ kernel_manager (snd (session_exists path self)) = kernel_manager self)
  /\ (forall kwargs,
        incl (session (snd (get_session kwargs self))) (session self)
        /\ kernel_manager (snd (get_session kwargs self)) = kernel_manager self)
  /\ incl (session (snd (list_sessions self))) (session self)
  /\ kernel_manager (snd (list_sessions self)) = kernel_manager self.
Proof.
  split; [| split].
  - intros path. rewrite session_exists_run.
    destruct (executed_select [("path", path)] self) as [Ht1 _].
    destruct (find (has_path path) (session self)) as [row |];
      [destruct (alive (kernel_manager self) row) |]; cbn [snd];
      rewrite ?session_executed, ?kernel_manager_executed, ?Ht1;
      (split; [| reflexivity]);
      try apply incl_refl; apply incl_run_delete.
  - intros kwargs.
    destruct kwargs as [| kv kwargs']; [split; [apply incl_refl | reflexivity] |].
    set (kwargs := kv :: kwargs').
    destruct (forallb in_columns (map fst kwargs)) eqn:Hcols.
    + rewrite (@get_session_run kwargs self ltac:(discriminate) Hcols).
      destruct (executed_select kwargs self) as [Ht1 _].
      destruct (find (row_matches kwargs) (session self)) as [row |];
        [destruct (alive (kernel_manager self) row) |]; cbn [snd];
        rewrite ?session_executed, ?kernel_manager_executed, ?Ht1;
        (split; [| reflexivity]);
        try apply incl_refl; apply incl_run_delete.
    + unfold get_session, bind. unfold kwargs in *.
      rewrite (check_columns_bad _ _ Hcols).
      split; [apply incl_refl | reflexivity].
  - destruct (list_sessions_run self) as (s1 & -> & Hk1 & Ht1 & _).
    cbn [snd]. split; [| assumption].
    rewrite Ht1. intros r Hin. unfold culled_table in Hin.
    apply filter_In in Hin. tauto.
Qed.

(** ** The storage handle over a close *)

(** X13.  A manager can be used again after [close]: on a manager that
    has opened nothing yet, a statement, [close] and a second statement
    leave one cursor and the one connection of the first statement open,
    no second connection is made, and the second statement ran on the
    table the first one left. *)
Theorem cursor_reopens_on_connection (q1 q2 : sql) (self : Manager) :
  _cursor self = None ->
  _connection self = None ->
  open_objects self = [] ->
  let again := executed q2 (snd (close (executed q1 self))) in
  _connection again = Some (Connection (database_filepath self))
  /\ _cursor again = Some (Cursor (database_filepath self))
  /\ open_objects again
     = [Cursor (database_filepath self); Connection (database_filepath self)]
  /\ session again = fst (run q2 (fst (run q1 (session self)))).
Proof.
  intros Hcursor Hconnection Hopen.
  unfold executed, execute, cursor, connection, bind, close.
  rewrite Hcursor, Hconnection. simpl.
  destruct (run q1 (session self)) as [table1 rows1].
  destruct (writes q1); simpl;
    destruct (run q2 table1) as [table2 rows2];
    destruct (writes q2); simpl;
    rewrite Hopen, String.eqb_refl; simpl; auto.
Qed.

(** X14.  [close] may be called again, as [__del__] does after an
    explicit close: the second call changes nothing; and a close touches
    neither the rows nor the history nor [_connection]. *)
Theorem close_twice (self : Manager) :
  close (snd (close self)) = (Return tt, snd (close self))
  /\ __del__ (snd (close self)) = (Return tt, snd (close self))
  /\ session (snd (close self)) = session self
  /\ history (snd (close self)) = history self
  /\ _connection (snd (close self)) = _connection self.
Proof.
  unfold __del__, close. destruct (_cursor self) eqn:Hcursor; simpl.
  - auto.
  - rewrite Hcursor. auto.
Qed.

End Properties.

(** ** [SessionRecord.__eq__] *)

Lemma truthy_spec (a : value) :
  truthy a = true <-> exists s, a = Some s /\ s <> "".
Proof.
  destruct a as [s |]; simpl.
  - rewrite negb_true_iff. split.
    + intros E. exists s. split; [reflexivity |].
      intros ->. discriminate.
    + intros (s' & [= <-] & Hs). now apply String.eqb_neq.
  - split; [discriminate | intros (s & E & _); discriminate].
Qed.

Lemma both_truthy_equal (a b : value) :
  truthy a && truthy b && py_eq a b = true
  <-> exists s, s <> "" /\ a = Some s /\ b = Some s.
Proof.
  rewrite !andb_true_iff, !truthy_spec. split.
  - intros [[(s & -> & Hs) (s' & -> & _)] E]. simpl in E.
    apply String.eqb_eq in E. subst. eauto.
  - intros (s & Hs & -> & ->). simpl. rewrite String.eqb_refl.
    repeat split; eauto.
Qed.

(** C7, as the claim words it: a field is present when it is not
    [None].  Two records whose session id is the empty string are not
    equal, although their session ids are present and equal. *)
Lemma SessionRecord_eq_empty_id :
  SessionRecord.eq (SessionRecord.mk (Some "") None None)
                   (SessionRecord.mk (Some "") None None) = false
  /\ ~ (SessionRecord.eq (SessionRecord.mk (Some "") None None)
                         (SessionRecord.mk (Some "") None None) = true
        <-> (Some "" <> None /\ Some "" <> None
             /\ Some "" = Some "")
            \/ ((None : value) <> None /\ (None : value) <> None
                /\ (None : value) = None)).
Proof.
  split; [reflexivity |].
  intros [_ Himp].
  assert (E : SessionRecord.eq (SessionRecord.mk (Some "") None None)
                               (SessionRecord.mk (Some "") None None) = true).
  { apply Himp. left. repeat split; discriminate. }
  discriminate E.
Qed.

(** C7, as the code has it.  Two records are equal exactly when their
    session ids are the same non-empty string or their kernel ids are the
    same non-empty string; [recorded] plays no part. *)
Theorem SessionRecord_eq_spec (self other : SessionRecord.t) :
  (SessionRecord.eq self other = true
   <-> (exists s, s <> "" /\ SessionRecord.session_id self = Some s
                  /\ SessionRecord.session_id other = Some s)
       \/ (exists s, s <> "" /\ SessionRecord.kernel_id self = Some s
                     /\ SessionRecord.kernel_id other = Some s))
  /\ (forall r r',
        SessionRecord.eq
          (SessionRecord.mk (SessionRecord.session_id self)
                            (SessionRecord.kernel_id self) r)
          (SessionRecord.mk (SessionRecord.session_id other)
                            (SessionRecord.kernel_id other) r')
        = SessionRecord.eq self other).
Proof.
  split.
  - unfold SessionRecord.eq.
    rewrite <- !both_truthy_equal, <- orb_true_iff.
    now destruct (_ || _).
  - intros r r'. reflexivity.
Qed.

(** ** [_validate_database_filepath] *)

Lemma startswith_firstn (prefix : list byte) :
  forall (n : nat) (data : list byte),
    List.length prefix <= n ->
    startswith (firstn n data) prefix = startswith data prefix.
Proof.
  induction prefix as [| p prefix IH]; intros n data Hlen.
  - destruct data, n; reflexivity.
  - destruct n as [| n]; simpl in Hlen; [lia |].
    destruct data as [| d data]; simpl; [reflexivity |].
    now rewrite IH by lia.
Qed.

Lemma is_empty_firstn (n : nat) (data : list byte) :
  is_empty (firstn (S n) data) = is_empty data.
Proof. now destruct data. Qed.

Lemma is_empty_spec (data : list byte) : is_empty data = true <-> data = [].
Proof. destruct data; simpl; split; congruence. Qed.

(** C8, as the claim words it, on a file that exists and may not be
    read: the path is neither refused with [TraitError] nor accepted;
    the error of [open] leaves the validation.  The same holds of a file
    named with a trailing slash. *)
Lemma validate_database_filepath_unreadable :
  (path_stat (Demo.files "/srv/locked.db") = Return IsOther
   /\ _validate_database_filepath Demo.files "/srv/locked.db"
      = Raise (Exception "PermissionError")
   /\ _validate_database_filepath Demo.files "/srv/locked.db" <> Raise TraitError
   /\ _validate_database_filepath Demo.files "/srv/locked.db"
      <> Return "/srv/locked.db")
  /\ _validate_database_filepath Demo.files "/srv/sessions.db/"
     = Raise (Exception "NotADirectoryError").
Proof.
  repeat split; discriminate.
Qed.

(** C8, as the code has it.  For a configured path other than
    [":memory:"]: an error raised by the look-up of the path or by
    opening and reading the file leaves the validation unchanged;
    otherwise validation raises [TraitError] when the path is a
    directory, and when it is a file whose content is neither empty nor
    starts with the sqlite header, and in every other case (nothing at
    the path, an empty file, a file that starts with the header) it
    returns the path. *)
Theorem validate_database_filepath_spec (fs : filesystem) (filepath : string) :
  filepath <> ":memory:" ->
  (forall e, path_stat (fs filepath) = Raise e ->
             _validate_database_filepath fs filepath = Raise e)
  /\ (path_stat (fs filepath) = Return NoEntry ->
      _validate_database_filepath fs filepath = Return filepath)
  /\ (path_stat (fs filepath) = Return IsDirectory ->
      _validate_database_filepath fs filepath = Raise TraitError)
  /\ (path_stat (fs filepath) = Return IsOther ->
      (forall e, path_read (fs filepath) = Raise e ->
                 _validate_database_filepath fs filepath = Raise e)
      /\ (forall content,
            path_read (fs filepath) = Return content ->
            (content <> [] /\ startswith content sqlite_header = false ->
             _validate_database_filepath fs filepath = Raise TraitError)
            /\ (content = [] \/ startswith content sqlite_header = true ->
                _validate_database_filepath fs filepath = Return filepath))).
Proof.
  intros Hpath. unfold _validate_database_filepath.
  apply String.eqb_neq in Hpath. rewrite Hpath.
  assert (Hlen : List.length sqlite_header <= 100) by (vm_compute; lia).
  split; [| split; [| split]].
  - now intros e ->.
  - now intros ->.
  - now intros ->.
  - intros ->. split; [now intros e -> |].
    intros content ->. cbv zeta.
    rewrite (startswith_firstn _ _ Hlen), is_empty_firstn. split.
    + intros [Hne Hhead]. rewrite Hhead.
      destruct (is_empty content) eqn:E; [| reflexivity].
      apply is_empty_spec in E. contradiction.
    + intros [-> | Hhead]; [| now rewrite Hhead].
      now destruct (startswith [] sqlite_header).
Qed.

(** * The statements on the small world *)

(** Sessions A and B on kernels k1 and k2, k1 killed behind the
    manager's back: [list_sessions] answers with B alone and A's row is
    gone. *)
Lemma list_sessions_reconciles_witness :
  fst (list_sessions (Demo.manager Demo.only_k2 [Demo.row_a; Demo.row_b]))
  = Return [Some (mkModel "B" (Some "/b.ipynb") (Some "b") (Some "notebook")
                    (mkKernelModel (Some "k2") "idle")
                    (Some (Some "/b.ipynb", Some "b")))]
  /\ ~ In Demo.row_a
        (session (snd (list_sessions
                         (Demo.manager Demo.only_k2 [Demo.row_a; Demo.row_b])))).
Proof.
  destruct (list_sessions_reconciles
              (Demo.manager Demo.only_k2 [Demo.row_a; Demo.row_b]))
    as (Hresult & _ & Hdead & _).
  split.
  - exact Hresult.
  - apply (Hdead Demo.row_a); [left | ]; reflexivity.
Defined.

(** No session on the path: 404.  A's row found by its path, k1 dead:
    404 and the row is gone. *)
Lemma get_session_not_found_witness :
  fst (get_session [("path", Some "/c.ipynb")]
         (Demo.manager Demo.only_k2 [Demo.row_a; Demo.row_b]))
  = Raise (HTTPError 404)
  /\ fst (get_session [("path", Some "/a.ipynb")]
            (Demo.manager Demo.only_k2 [Demo.row_a; Demo.row_b]))
     = Raise (HTTPError 404)
  /\ session (snd (get_session [("path", Some "/a.ipynb")]
                     (Demo.manager Demo.only_k2 [Demo.row_a; Demo.row_b])))
     = [Demo.row_b].
Proof.
  split.
  - refine (proj1 (proj1 (@get_session_not_found _ _ Demo.kernels
                            [("path", Some "/c.ipynb")]
                            (Demo.manager Demo.only_k2 [Demo.row_a; Demo.row_b])
                            _ eq_refl) _)).
    + discriminate.
    + intros r [<- | [<- | []]]; reflexivity.
  - destruct (@get_session_not_found _ _ Demo.kernels
                [("path", Some "/a.ipynb")]
                (Demo.manager Demo.only_k2 [Demo.row_a; Demo.row_b])
                ltac:(discriminate) eq_refl) as [_ Hdead].
    destruct (Hdead Demo.row_a eq_refl eq_refl) as (Hraise & _ & Htable & _).
    split; [exact Hraise | exact Htable].
Defined.

(** k1 refuses to shut down: the exception leaves [delete_session] and
    both rows stay.  k1 shuts down: A's row goes and A is not found. *)
Lemma delete_session_shutdown_first_witness :
  (fst (delete_session (Some "A")
          (Demo.manager Demo.stuck_k1 [Demo.row_a; Demo.row_b]))
   = Raise (Exception "shutdown failed")
   /\ session (snd (delete_session (Some "A")
                      (Demo.manager Demo.stuck_k1 [Demo.row_a; Demo.row_b])))
      = [Demo.row_a; Demo.row_b])
  /\ (history (snd (delete_session (Some "A")
                      (Demo.manager Demo.both [Demo.row_a; Demo.row_b])))
      = [ev_shutdown_kernel (Some "k1"); ev_execute (DELETE (Some "A"))]
      /\ fst (get_session [("session_id", Some "A")]
                (snd (delete_session (Some "A")
                        (Demo.manager Demo.both [Demo.row_a; Demo.row_b]))))
         = Raise (HTTPError 404)).
Proof.
  split.
  - destruct (@delete_session_shutdown_first _ _ Demo.kernels (Some "A") Demo.row_a
                (Demo.manager Demo.stuck_k1 [Demo.row_a; Demo.row_b])
                eq_refl eq_refl) as [Hfail _].
    destruct (Hfail (Exception "shutdown failed") Demo.stuck_k1 eq_refl)
      as (Hraise & Htable & _).
    split; [exact Hraise | exact Htable].
  - destruct (@delete_session_shutdown_first _ _ Demo.kernels (Some "A") Demo.row_a
                (Demo.manager Demo.both [Demo.row_a; Demo.row_b])
                eq_refl eq_refl) as [_ Hdone].
    destruct (Hdone tt Demo.only_k2 eq_refl)
      as (_ & Hhistory & _ & _ & _ & Hmissing).
    split; [exact Hhistory | exact Hmissing].
Defined.

(** A is alive and the change set names a column the table lacks. *)
Lemma update_session_invalid_column_witness :
  fst (update_session (Some "A") [("bogus_column", Some "v")]
         (Demo.manager Demo.both [Demo.row_a; Demo.row_b]))
  = Raise TypeError
  /\ session (snd (update_session (Some "A") [("bogus_column", Some "v")]
                     (Demo.manager Demo.both [Demo.row_a; Demo.row_b])))
     = [Demo.row_a; Demo.row_b].
Proof.
  destruct (@update_session_invalid_column _ _ Demo.kernels (Some "A") Demo.row_a
              [("bogus_column", Some "v")]
              (Demo.manager Demo.both [Demo.row_a; Demo.row_b])
              eq_refl eq_refl) as (Hraise & Htable & _).
  - exists "bogus_column". split; [left; reflexivity |].
    intros [E | [E | [E | [E | [E | []]]]]]; discriminate E.
  - split; [exact Hraise | exact Htable].
Defined.

(** No session Z, and the change set names a column the table lacks. *)
Lemma update_session_missing_first_witness :
  fst (update_session (Some "Z") [("bogus_column", Some "v")]
         (Demo.manager Demo.both [Demo.row_a; Demo.row_b]))
  = Raise (HTTPError 404).
Proof.
  refine (proj1 (update_session_missing_first (Some "Z")
                   [("bogus_column", Some "v")]
                   (Demo.manager Demo.both [Demo.row_a; Demo.row_b]) _)).
  intros r [<- | [<- | []]]; reflexivity.
Defined.

(** C5, as the claim words it, on two sessions that share a path, the
    first on a dead kernel: a row with the path has a live kernel and yet
    [session_exists] returns false, and a second call returns true. *)
Lemma session_exists_duplicate_path :
  (In Demo.row_a' (session (Demo.manager Demo.only_k2 [Demo.row_a; Demo.row_a']))
   /\ col_path Demo.row_a' = Some "/a.ipynb"
   /\ alive Demo.only_k2 Demo.row_a' = true)
  /\ fst (session_exists (Some "/a.ipynb")
            (Demo.manager Demo.only_k2 [Demo.row_a; Demo.row_a']))
     = Return false
  /\ fst (session_exists (Some "/a.ipynb")
            (snd (session_exists (Some "/a.ipynb")
                    (Demo.manager Demo.only_k2 [Demo.row_a; Demo.row_a']))))
     = Return true.
Proof.
  split; [split; [right; left; reflexivity | split; reflexivity] |].
  split; reflexivity.
Qed.

(** A's kernel is dead and no other session has its path: false, the
    row is gone, and false again. *)
Lemma session_exists_first_row_witness :
  fst (session_exists (Some "/a.ipynb")
         (Demo.manager Demo.only_k2 [Demo.row_a; Demo.row_b]))
  = Return false
  /\ fst (session_exists (Some "/a.ipynb")
            (snd (session_exists (Some "/a.ipynb")
                    (Demo.manager Demo.only_k2 [Demo.row_a; Demo.row_b]))))
     = Return false.
Proof.
  destruct (session_exists_first_row (Some "/a.ipynb")
              (Demo.manager Demo.only_k2 [Demo.row_a; Demo.row_b]))
    as (_ & _ & Hdead).
  destruct (Hdead Demo.row_a eq_refl eq_refl) as (Hfalse & _ & Hagain).
  split; [exact Hfalse |].
  refine (proj1 (Hagain _)).
  intros r [<- | [<- | []]]; [reflexivity | discriminate].
Defined.



(** A directory and a text file are refused, a database and a path
    with nothing at it are accepted, and a file that may not be read
    raises what [open] raised. *)
Lemma validate_database_filepath_spec_witness :
  _validate_database_filepath Demo.files "/srv" = Raise TraitError
  /\ _validate_database_filepath Demo.files "/srv/notes.txt" = Raise TraitError
  /\ _validate_database_filepath Demo.files "/srv/sessions.db"
     = Return "/srv/sessions.db"
  /\ _validate_database_filepath Demo.files "/new.db" = Return "/new.db"
  /\ _validate_database_filepath Demo.files "/srv/locked.db"
     = Raise (Exception "PermissionError").
Proof.
  split; [| split; [| split; [| split]]].
  - destruct (@validate_database_filepath_spec Demo.files "/srv"
                ltac:(discriminate)) as (_ & _ & Hdir & _).
    exact (Hdir eq_refl).
  - destruct (@validate_database_filepath_spec Demo.files "/srv/notes.txt"
                ltac:(discriminate)) as (_ & _ & _ & Hfile).
    destruct (Hfile eq_refl) as [_ Hread].
    refine (proj1 (Hread (list_byte_of_string "hello") eq_refl) _).
    split; [discriminate | reflexivity].
  - destruct (@validate_database_filepath_spec Demo.files "/srv/sessions.db"
                ltac:(discriminate)) as (_ & _ & _ & Hfile).
    destruct (Hfile eq_refl) as [_ Hread].
    refine (proj2 (Hread _ eq_refl) _). right. reflexivity.
  - destruct (@validate_database_filepath_spec Demo.files "/new.db"
                ltac:(discriminate)) as (_ & Hnone & _).
    exact (Hnone eq_refl).
  - destruct (@validate_database_filepath_spec Demo.files "/srv/locked.db"
                ltac:(discriminate)) as (_ & _ & _ & Hfile).
    destruct (Hfile eq_refl) as [Hraise _].
    exact (Hraise (Exception "PermissionError") eq_refl).
Defined.

(** One query on a new manager, then [close]. *)
Lemma close_leaves_connection_open_witness :
  _cursor (snd (close (executed (SELECT []) (Demo.manager Demo.both []))))
  = None
  /\ _connection (snd (close (executed (SELECT []) (Demo.manager Demo.both []))))
     = Some (Connection ":memory:")
  /\ In (Connection ":memory:")
        (open_objects
           (snd (close (executed (SELECT []) (Demo.manager Demo.both []))))).
Proof.
  destruct (@close_leaves_connection_open _ _ (SELECT [])
              (Demo.manager Demo.both []) eq_refl eq_refl)
    as (_ & _ & _ & Hcursor & _ & Hconnection & Hopen).
  split; [exact Hcursor | split; [exact Hconnection | exact Hopen]].
Defined.

(** * Properties of jupyter_server.utils *)

(** ** UNIX socket paths *)

Lemma prefix_empty (s : string) : String.prefix "" s = true.
Proof. now destruct s. Qed.

Lemma prefix_cons (a b : ascii) (s1 s2 : string) :
  String.prefix (String a s1) (String b s2) = Ascii.eqb a b && String.prefix s1 s2.
Proof.
  simpl. destruct (ascii_dec a b) as [-> | Hab].
  - now rewrite Ascii.eqb_refl.
  - apply Ascii.eqb_neq in Hab. now rewrite Hab.
Qed.

Lemma urlencode_cons (c : ascii) (p : string) :
  urlencode_unix_socket_path (String c p)
  = if Ascii.eqb c "/" then "%2F" ++ urlencode_unix_socket_path p
    else String c (urlencode_unix_socket_path p).
Proof.
  unfold urlencode_unix_socket_path, str_replace.
  cbn [replace_from]. rewrite prefix_cons, prefix_empty, andb_true_r.
  rewrite (Ascii.eqb_sym "/" c). reflexivity.
Qed.

(** X15.  An encoded socket path holds no slash, so that it can stand
    as the host of an [http+unix] URL. *)
Theorem urlencode_unix_socket_path_no_slash (socket_path : string) :
  str_in "/" (urlencode_unix_socket_path socket_path) = false.
Proof.
  induction socket_path as [| c p IH]; [reflexivity |].
  rewrite urlencode_cons. destruct (Ascii.eqb_spec c "/") as [-> | Hc].
  - simpl. exact IH.
  - cbn [str_in]. rewrite IH, prefix_cons, prefix_empty.
    apply Ascii.eqb_neq in Hc. rewrite Ascii.eqb_sym in Hc.
    now rewrite Hc.
Qed.

Lemma urldecode_cons (c : ascii) (p : string) :
  replace_from "%2F" "/" 0 (String c p)
  = if String.prefix "%2F" (String c p)
    then String "/" (replace_from "%2F" "/" 2 p)
    else String c (replace_from "%2F" "/" 0 p).
Proof. reflexivity. Qed.

Lemma prefix_escape (c : ascii) (p : string) :
  String.prefix "%2F" (String c p) = true ->
  exists p', c = "%"%char /\ p = String "2" (String "F" p').
Proof.
  rewrite prefix_cons. intros Hpre. apply andb_true_iff in Hpre.
  destruct Hpre as [Hc Hp]. apply Ascii.eqb_eq in Hc.
  destruct p as [| c1 [| c2 p']]; try discriminate Hp.
  - rewrite prefix_cons in Hp. apply andb_true_iff in Hp.
    destruct Hp as [_ Hp]. discriminate Hp.
  - rewrite !prefix_cons in Hp. apply andb_true_iff in Hp.
    destruct Hp as [H1 Hp]. apply andb_true_iff in Hp. destruct Hp as [H2 _].
    apply Ascii.eqb_eq in H1, H2. subst. eauto.
Qed.

Lemma prefix_F_urlencode (p : string) :
  String.prefix "F" (urlencode_unix_socket_path p) = String.prefix "F" p.
Proof.
  destruct p as [| c p]; [reflexivity |].
  rewrite urlencode_cons. destruct (Ascii.eqb_spec c "/") as [-> | Hc];
    [reflexivity |].
  now rewrite !prefix_cons, !prefix_empty.
Qed.

Lemma prefix_2F_urlencode (p : string) :
  String.prefix "2F" (urlencode_unix_socket_path p) = String.prefix "2F" p.
Proof.
  destruct p as [| c p]; [reflexivity |].
  rewrite urlencode_cons. destruct (Ascii.eqb_spec c "/") as [-> | Hc];
    [reflexivity |].
  now rewrite !(prefix_cons "2"), prefix_F_urlencode.
Qed.

(** Decoding does not see whether a slash was encoded. *)
Lemma urldecode_urlencode_length (n : nat) :
  forall p, String.length p <= n ->
            replace_from "%2F" "/" 0 (urlencode_unix_socket_path p)
            = replace_from "%2F" "/" 0 p.
Proof.
  induction n as [| n IH]; intros p Hlen.
  - destruct p; [reflexivity | simpl in Hlen; lia].
  - destruct p as [| c p]; [reflexivity |]. simpl in Hlen.
    rewrite urlencode_cons. destruct (Ascii.eqb_spec c "/") as [-> | Hc].
    + change ("%2F" ++ urlencode_unix_socket_path p)
        with (String "%" (String "2" (String "F" (urlencode_unix_socket_path p)))).
      rewrite !urldecode_cons. cbn [String.prefix ascii_dec ascii_rec ascii_rect].
      rewrite prefix_empty.
      replace (String.prefix "%2F" (String "/" p)) with false by reflexivity.
      cbn [replace_from]. rewrite IH by lia. reflexivity.
    + rewrite !urldecode_cons, !(prefix_cons "%"), prefix_2F_urlencode.
      destruct (Ascii.eqb "%" c && String.prefix "2F" p) eqn:Hpre.
      * assert (Hp : String.prefix "%2F" (String c p) = true)
          by now rewrite prefix_cons.
        destruct (prefix_escape _ _ Hp) as (p' & -> & ->).
        rewrite !urlencode_cons. cbn [Ascii.eqb Bool.eqb replace_from].
        rewrite IH by (simpl in Hlen; lia). reflexivity.
      * rewrite IH by lia. reflexivity.
Qed.

Lemma urldecode_length (p : string) :
  forall n, String.length (replace_from "%2F" "/" n p) <= String.length p - n.
Proof.
  induction p as [| c p IH]; intros n; [simpl; lia |].
  destruct n as [| n].
  - rewrite urldecode_cons. destruct (String.prefix "%2F" (String c p)).
    + specialize (IH 2). simpl in *. lia.
    + specialize (IH 0). simpl in *. lia.
  - specialize (IH n). simpl in *. lia.
Qed.

Lemma urldecode_fixed (p : string) :
  str_in "%2F" p = false -> replace_from "%2F" "/" 0 p = p.
Proof.
  induction p as [| c p IH]; [reflexivity |].
  cbn [str_in]. intros Hin. apply orb_false_iff in Hin. destruct Hin as [Hpre Hin].
  rewrite urldecode_cons, Hpre, IH by assumption. reflexivity.
Qed.

Lemma urldecode_shrinks (p : string) :
  str_in "%2F" p = true ->
  String.length (replace_from "%2F" "/" 0 p) < String.length p.
Proof.
  induction p as [| c p IH]; [discriminate |].
  cbn [str_in]. intros Hin. rewrite urldecode_cons.
  destruct (String.prefix "%2F" (String c p)) eqn:Hpre.
  - destruct (prefix_escape _ _ Hpre) as (p' & -> & ->).
    pose proof (urldecode_length (String "2" (String "F" p')) 2). simpl in *. lia.
  - simpl in Hin. specialize (IH Hin). simpl. lia.
Qed.

(** X16.  Decoding an encoded socket path gives the path back exactly
    when the path does not already hold the escape [%2F]; in every case
    it gives what decoding the path itself gives. *)
Theorem urldecode_urlencode_unix_socket_path (socket_path : string) :
  urldecode_unix_socket_path (urlencode_unix_socket_path socket_path)
  = urldecode_unix_socket_path socket_path
  /\ (urldecode_unix_socket_path (urlencode_unix_socket_path socket_path)
      = socket_path
      <-> str_in "%2F" socket_path = false).
Proof.
  unfold urldecode_unix_socket_path, str_replace.
  rewrite (@urldecode_urlencode_length (String.length socket_path)
             socket_path (le_n _)).
  split; [reflexivity |]. split.
  - intros Hback. destruct (str_in "%2F" socket_path) eqn:Hin; [| reflexivity].
    apply urldecode_shrinks in Hin. rewrite Hback in Hin. lia.
  - apply urldecode_fixed.
Qed.

(** ** [url_path_join] *)

Lemma str_endswith_append (s suffix : string) :
  str_endswith (s ++ suffix) suffix = true.
Proof.
  induction s as [| c s IH]; simpl.
  - destruct suffix; cbn [append str_endswith]; now rewrite String.eqb_refl.
  - rewrite IH. apply orb_true_r.
Qed.

(** X17.  [url_path_join] of no piece raises; of pieces, it returns a
    path that starts with a slash when the first piece does and ends
    with a slash when the last piece does. *)
Theorem url_path_join_keeps_slashes (first : string) (rest : list string) :
  url_path_join [] = Raise (Exception "IndexError")
  /\ exists result,
       url_path_join (first :: rest) = Return result
       /\ (str_startswith first "/" = true -> str_startswith result "/" = true)
       /\ (str_endswith (last (first :: rest) "") "/" = true ->
           str_endswith result "/" = true).
Proof.
  split; [reflexivity |].
  unfold url_path_join.
  set (joined := String.concat "/" _).
  set (final := str_endswith (last (first :: rest) "") "/").
  destruct (str_startswith first "/"), final; cbv zeta;
    match goal with
    | |- context [if ?r =? "//" then _ else _] =>
        destruct (String.eqb_spec r "//") as [E | E]
    end;
    eexists; (split; [reflexivity |]); split; intros Hyes;
    try discriminate Hyes; try reflexivity;
    try apply str_endswith_append;
    unfold str_startswith; simpl; apply prefix_empty.
Qed.

Lemma str_lstrip_clean (s : string) :
  str_startswith s "/" = false -> str_lstrip "/" s = s.
Proof.
  destruct s as [| a s]; [reflexivity |].
  unfold str_startswith. rewrite prefix_cons, prefix_empty, andb_true_r.
  intros Ha. simpl. rewrite Ascii.eqb_sym in Ha. now rewrite Ha.
Qed.

Lemma str_rstrip_clean (s : string) :
  str_endswith s "/" = false -> str_rstrip "/" s = s.
Proof.
  induction s as [| a s IH]; [reflexivity |].
  cbn [str_endswith str_rstrip]. intros Hend.
  apply orb_false_iff in Hend. destruct Hend as [Hnot Hend].
  rewrite (IH Hend). destruct s as [| b s]; [| reflexivity].
  destruct (Ascii.eqb_spec a "/") as [-> | _]; [discriminate Hnot | reflexivity].
Qed.

Lemma str_strip_clean (s : string) :
  clean_piece s -> str_strip "/" s = s.
Proof.
  intros (_ & Hstart & Hend). unfold str_strip.
  rewrite (str_lstrip_clean _ Hstart). now apply str_rstrip_clean.
Qed.

Lemma last_in (d : string) (l : list string) :
  l <> [] -> In (last l d) l.
Proof.
  induction l as [| x l IH]; [congruence |]. intros _.
  destruct l as [| y l]; [now left |].
  right. apply IH. discriminate.
Qed.

Lemma map_id_in {A} (f : A -> A) (l : list A) :
  (forall x, In x l -> f x = x) -> map f l = l.
Proof.
  induction l as [| x l IH]; simpl; intros Hid; [reflexivity |].
  rewrite (Hid x) by now left. f_equal. auto.
Qed.

(** X18.  Pieces that are not empty and carry no slash at either end
    are joined by single slashes and nothing else is changed. *)
Theorem url_path_join_clean (pieces : list string) :
  pieces <> [] ->
  (forall s, In s pieces -> clean_piece s) ->
  url_path_join pieces = Return (String.concat "/" pieces).
Proof.
  intros Hne Hclean. destruct pieces as [| first rest]; [congruence |].
  unfold url_path_join.
  destruct (Hclean first (or_introl eq_refl)) as (Hfirst & Hstart & _).
  destruct (Hclean _ (last_in "" Hne)) as (_ & _ & Hend).
  rewrite Hstart, Hend, (map_id_in (str_strip "/")), filter_all.
  - cbv zeta. destruct first as [| a first]; [congruence |].
    unfold str_startswith in Hstart.
    rewrite prefix_cons, prefix_empty, andb_true_r in Hstart.
    apply Ascii.eqb_neq in Hstart.
    replace (String.concat "/" (String a first :: rest) =? "//") with false;
      [reflexivity |].
    symmetry. apply String.eqb_neq. intros E.
    destruct rest; simpl in E; injection E as Ha _; congruence.
  - intros s Hin. destruct (Hclean s Hin) as (Hs & _).
    apply negb_true_iff. now apply String.eqb_neq.
  - intros s Hin. apply str_strip_clean. auto.
Qed.

(** * Further properties of [SessionRecord] *)

Lemma py_eq_sym (a b : value) : py_eq a b = py_eq b a.
Proof.
  destruct a, b; simpl; try reflexivity. apply String.eqb_sym.
Qed.

(** X19.  [__eq__] gives the same answer whichever record is asked. *)
Theorem SessionRecord_eq_sym (self other : SessionRecord.t) :
  SessionRecord.eq self other = SessionRecord.eq other self.
Proof.
  unfold SessionRecord.eq.
  rewrite (py_eq_sym (SessionRecord.session_id self)),
    (py_eq_sym (SessionRecord.kernel_id self)),
    (andb_comm (truthy (SessionRecord.session_id self))),
    (andb_comm (truthy (SessionRecord.kernel_id self))).
  reflexivity.
Qed.

(** X20.  A record equals itself exactly when one of its two ids is a
    non-empty string: a record with no id, as the dataclass builds it by
    default, is not equal to itself. *)
Theorem SessionRecord_eq_refl_iff (self : SessionRecord.t) :
  (SessionRecord.eq self self = true
   <-> truthy (SessionRecord.session_id self) = true
       \/ truthy (SessionRecord.kernel_id self) = true)
  /\ SessionRecord.eq (SessionRecord.mk None None None)
                      (SessionRecord.mk None None None) = false.
Proof.
  split; [| reflexivity].
  unfold SessionRecord.eq.
  destruct (SessionRecord.session_id self) as [s |],
           (SessionRecord.kernel_id self) as [k |]; simpl;
    rewrite ?String.eqb_refl, ?andb_true_r, ?andb_diag, ?orb_false_r;
    try (destruct (negb (s =? "")));
    try (destruct (negb (k =? "")));
    simpl; intuition discriminate.
Qed.

(** X21.  [__eq__] is not transitive: a record can equal one record by
    its session id and another by its kernel id while those two share
    nothing. *)
Theorem SessionRecord_eq_not_transitive :
  ~ (forall a b c : SessionRecord.t,
        SessionRecord.eq a b = true -> SessionRecord.eq b c = true ->
        SessionRecord.eq a c = true).
Proof.
  intros Htrans.
  specialize (Htrans (SessionRecord.mk (Some "s1") (Some "k1") None)
                     (SessionRecord.mk (Some "s1") (Some "k2") None)
                     (SessionRecord.mk (Some "s2") (Some "k2") None)
                     eq_refl eq_refl).
  discriminate Htrans.
Qed.

(** * The further statements on the small world *)

Lemma get_session_refuses_untouched_witness :
  get_session [("path", Some "/a.ipynb"); ("owner", Some "me")]
    (Demo.manager Demo.both [Demo.row_a])
  = (Raise TypeError, Demo.manager Demo.both [Demo.row_a]).
Proof.
  apply (@get_session_refuses_untouched _ _ Demo.kernels).
  right. exists "owner". split; [right; left; reflexivity |].
  intros [E | [E | [E | [E | [E | []]]]]]; discriminate E.
Defined.

Lemma get_session_found_witness :
  session (snd (get_session [("path", Some "/b.ipynb")]
                  (Demo.manager Demo.only_k2 [Demo.row_a; Demo.row_b])))
  = [Demo.row_a; Demo.row_b].
Proof.
  destruct (@get_session_found _ _ Demo.kernels
              [("path", Some "/b.ipynb")] Demo.row_b
              (Demo.manager Demo.only_k2 [Demo.row_a; Demo.row_b])
              ltac:(discriminate) eq_refl eq_refl eq_refl)
    as (_ & _ & Htable & _).
  exact Htable.
Defined.

Lemma create_session_then_get_witness :
  fst (get_session [("session_id", Some "u0")]
         (snd (create_session (Some "/c.ipynb") None (Some "notebook") None None
                 (Demo.manager Demo.both [Demo.row_a]))))
  = Return
      (Some (mkModel "u0" (Some "/c.ipynb") None (Some "notebook")
               (mkKernelModel (Some "k-new") "idle")
               (Some (Some "/c.ipynb", None)))).
Proof.
  exact (proj2 (@create_session_then_get _ _ Demo.kernels Demo.contents
                  (Some "/c.ipynb") None (Some "notebook") None None
                  (mkModel "u0" (Some "/c.ipynb") None (Some "notebook")
                     (mkKernelModel (Some "k-new") "idle")
                     (Some (Some "/c.ipynb", None)))
                  (Demo.manager Demo.both [Demo.row_a]) eq_refl)).
Defined.

Lemma create_session_start_failure_witness :
  fst (create_session (Some "/c.ipynb") None None (Some "nosuchkernel") None
         (Demo.manager Demo.both [Demo.row_a]))
  = Raise (Exception "NoSuchKernel")
  /\ session (snd (create_session (Some "/c.ipynb") None None
                     (Some "nosuchkernel") None
                     (Demo.manager Demo.both [Demo.row_a])))
     = [Demo.row_a].
Proof.
  destruct (@create_session_start_failure _ _ Demo.kernels Demo.contents
              (Some "/c.ipynb") None None (Some "nosuchkernel") None
              (Exception "NoSuchKernel") Demo.both
              (Demo.manager Demo.both [Demo.row_a]) eq_refl eq_refl)
    as (Hraise & Htable & _).
  split; [exact Hraise | exact Htable].
Defined.

Lemma create_session_then_exists_witness :
  fst (session_exists (Some "/c.ipynb")
         (snd (create_session (Some "/c.ipynb") None None None (Some "k2")
                 (Demo.manager Demo.both [Demo.row_a]))))
  = Return true.
Proof.
  refine (@create_session_then_exists _ _ Demo.kernels Demo.contents
            "/c.ipynb" None None None (Some "k2")
            (mkModel "u0" (Some "/c.ipynb") None None
               (mkKernelModel (Some "k2") "idle") None)
            (Demo.manager Demo.both [Demo.row_a]) _ _ eq_refl).
  - intros r [<- | []]. discriminate.
  - intros r [<- | []]. reflexivity.
Defined.

Lemma update_session_applies_witness :
  session (snd (update_session (Some "A") [("path", Some "/renamed.ipynb")]
                  (Demo.manager Demo.both [Demo.row_a; Demo.row_b])))
  = [mkRow "A" (Some "/renamed.ipynb") (Some "a") (Some "notebook") (Some "k1");
     Demo.row_b]
  /\ In Demo.row_b
        (session (snd (update_session (Some "A")
                         [("path", Some "/renamed.ipynb")]
                         (Demo.manager Demo.both [Demo.row_a; Demo.row_b])))).
Proof.
  split; [reflexivity |].
  destruct (@update_session_applies _ _ Demo.kernels (Some "A") Demo.row_a
              [("path", Some "/renamed.ipynb")]
              (Demo.manager Demo.both [Demo.row_a; Demo.row_b])
              eq_refl eq_refl ltac:(discriminate) eq_refl)
    as (_ & _ & _ & _ & Hothers).
  apply (Hothers Demo.row_b); [right; left |]; reflexivity.
Defined.

Lemma update_session_then_get_witness :
  fst (get_session [("session_id", Some "A")]
         (snd (update_session (Some "A")
                 [("path", Some "/renamed.ipynb"); ("type", Some "console")]
                 (Demo.manager Demo.both [Demo.row_a; Demo.row_b]))))
  = Return
      (Some (mkModel "A" (Some "/renamed.ipynb") (Some "a") (Some "console")
               (mkKernelModel (Some "k1") "idle") None)).
Proof.
  refine (proj1 (@update_session_then_get _ _ Demo.kernels "A" Demo.row_a
                   [("path", Some "/renamed.ipynb"); ("type", Some "console")]
                   (Demo.manager Demo.both [Demo.row_a; Demo.row_b])
                   eq_refl eq_refl _ eq_refl _ _ eq_refl)).
  - discriminate.
  - repeat constructor; simpl; intuition discriminate.
  - simpl. intuition discriminate.
Defined.

Lemma update_session_no_changes_witness :
  fst (update_session (Some "A") []
         (Demo.manager Demo.both [Demo.row_a; Demo.row_b]))
  = Return tt.
Proof.
  exact (proj1 (@update_session_no_changes _ _ Demo.kernels (Some "A") Demo.row_a
                  (Demo.manager Demo.both [Demo.row_a; Demo.row_b])
                  eq_refl eq_refl)).
Defined.

Lemma update_session_culls_witness :
  fst (update_session (Some "A") [("path", Some "/renamed.ipynb")]
         (Demo.manager Demo.only_k2 [Demo.row_a; Demo.row_b]))
  = Raise (HTTPError 404)
  /\ session (snd (update_session (Some "A") [("path", Some "/renamed.ipynb")]
                     (Demo.manager Demo.only_k2 [Demo.row_a; Demo.row_b])))
     = [Demo.row_b].
Proof.
  destruct (@update_session_culls _ _ Demo.kernels (Some "A") Demo.row_a
              [("path", Some "/renamed.ipynb")]
              (Demo.manager Demo.only_k2 [Demo.row_a; Demo.row_b])
              eq_refl eq_refl)
    as (Hraise & _ & Htable & _).
  split; [exact Hraise | exact Htable].
Defined.

Lemma delete_session_not_found_witness :
  fst (delete_session (Some "A")
         (Demo.manager Demo.only_k2 [Demo.row_a; Demo.row_b]))
  = Raise (HTTPError 404)
  /\ kernel_manager
       (snd (delete_session (Some "A")
               (Demo.manager Demo.only_k2 [Demo.row_a; Demo.row_b])))
     = Demo.only_k2.
Proof.
  destruct (@delete_session_not_found _ _ Demo.kernels (Some "A")
              (Demo.manager Demo.only_k2 [Demo.row_a; Demo.row_b]))
    as (Hraise & Hkernels & _).
  - intros row Hfind. injection Hfind as <-. reflexivity.
  - split; [exact Hraise | exact Hkernels].
Defined.

Lemma cursor_reopens_on_connection_witness :
  open_objects
    (executed (SELECT [])
       (snd (close (executed (INSERT Demo.row_a) (Demo.manager Demo.both [])))))
  = [Cursor ":memory:"; Connection ":memory:"]
  /\ session
       (executed (SELECT [])
          (snd (close (executed (INSERT Demo.row_a)
                         (Demo.manager Demo.both [])))))
     = [Demo.row_a].
Proof.
  destruct (@cursor_reopens_on_connection _ _ (INSERT Demo.row_a) (SELECT [])
              (Demo.manager Demo.both []) eq_refl eq_refl eq_refl)
    as (_ & _ & Hopen & Htable).
  split; [exact Hopen | exact Htable].
Defined.

Lemma url_path_join_clean_witness :
  url_path_join ["kernelspecs"; "python3"; "logo-64x64.png"]
  = Return "kernelspecs/python3/logo-64x64.png".
Proof.
  apply url_path_join_clean; [discriminate |].
  intros s [<- | [<- | [<- | []]]]; repeat split; discriminate.
Defined.

Lemma list_sessions_twice_witness :
  fst (list_sessions
         (snd (list_sessions
                 (Demo.manager Demo.only_k2 [Demo.row_a; Demo.row_b]))))
  = fst (list_sessions (Demo.manager Demo.only_k2 [Demo.row_a; Demo.row_b])).
Proof.
  destruct (@list_sessions_twice _ _ Demo.kernels
              (Demo.manager Demo.only_k2 [Demo.row_a; Demo.row_b]))
    as (_ & _ & _ & Hsame).
  apply Hsame. repeat constructor; simpl; intuition discriminate.
Defined.

Lemma urldecode_urlencode_unix_socket_path_witness :
  urldecode_unix_socket_path (urlencode_unix_socket_path "/tmp/jp.sock")
  = "/tmp/jp.sock".
Proof.
  apply (proj2 (urldecode_urlencode_unix_socket_path "/tmp/jp.sock")).
  reflexivity.
Defined.

Lemma url_path_join_keeps_slashes_witness :
  exists result,
    url_path_join ["/base/"; "kernelspecs/"] = Return result
    /\ str_startswith result "/" = true
    /\ str_endswith result "/" = true.
Proof.
  destruct (url_path_join_keeps_slashes "/base/" ["kernelspecs/"])
    as (_ & result & Hjoin & Hstart & Hend).
  exists result. split; [exact Hjoin |].
  split; [apply Hstart | apply Hend]; reflexivity.
Defined.
